(** * go-python-executor: session lifecycle and execution engine

    A shallow embedding of [internal/session/session.go] (Session, Manager,
    GetOrCreateSession, createNewSession, ExecuteCode, Cleanup,
    CleanupSessions) and of [internal/handler] (sendErrorResponse,
    ExecuteHandler), together with the behaviour of the Python script that
    ExecuteCode composes.

    Modelling choices.
    - The model is sequential: every exported operation is one atomic
      transition, which is what the locks of the Go code provide.
    - [*Session] pointers are locations of a heap, so that the registry map
      and a caller that still holds a session share one object.
    - The file system is a finite map from paths to contents plus a set of
      directories; a set of denied paths injects the failures of
      os.MkdirAll and os.WriteFile.
    - Instants and durations are integers (nanoseconds), in the range in
      which [time.Sub] is the exact difference.
    - The interpreter is an oracle [python] that maps a program text and
      the current top-level bindings to an outcome; the composed script is
      modelled phase by phase on top of it. *)

From stdpp Require Import gmap strings list fin_maps pretty.
From Stdlib Require Import ZArith Lia Ascii.

Open Scope Z_scope.

(** ** Characters that a string literal cannot hold *)

Definition nl : string := String "010"%char EmptyString.
Definition dq : string := String "034"%char EmptyString.

(** ** Paths *)

Module filepath.

(** [filepath.Join] on a directory and one clean, non-empty path element. *)
Definition Join (dir elem : string) : string := dir +:+ "/" +:+ elem.

(** The directory part of a path: everything before the last separator. *)
Fixpoint Dir (p : string) : option string :=
  match p with
  | EmptyString => None
  | String c r =>
      match Dir r with
      | Some d => Some (String c d)
      | None => if Ascii.eqb c "/"%char then Some EmptyString else None
      end
  end.

(** Every proper ancestor directory of a path. *)
Fixpoint ancestors (p : string) : list string :=
  match p with
  | EmptyString => []
  | String c r =>
      (if Ascii.eqb c "/"%char then [EmptyString] else []) ++ map (String c) (ancestors r)
  end.

(** [under d p]: [p] is [d] itself or lies inside the tree rooted at [d]. *)
Definition under (d p : string) : bool :=
  String.eqb p d || String.prefix (d +:+ "/") p.

End filepath.

(** ** The file system *)

Inductive errno := EACCES | ENOENT | ENOTDIR | EISDIR.

Definition errno_text (e : errno) : string :=
  match e with
  | EACCES => "permission denied"
  | ENOENT => "no such file or directory"
  | ENOTDIR => "not a directory"
  | EISDIR => "is a directory"
  end.

(** Go's [*fs.PathError]. *)
Record PathError := { Op : string; Path : string; Errno : errno }.

Definition PathError_Error (e : PathError) : string :=
  Op e +:+ " " +:+ Path e +:+ ": " +:+ errno_text (Errno e).

Record FS := {
  files : gmap string string;
  dirs : gset string;
  denied : gset string
}.

Module os.

Definition is_file (fs : FS) (p : string) : bool := bool_decide (is_Some (files fs !! p)).
(** The root, the empty prefix of every absolute path, always exists. *)
Definition is_dir (fs : FS) (p : string) : bool := String.eqb p "" || bool_decide (p ∈ dirs fs).
Definition is_denied (fs : FS) (p : string) : bool := bool_decide (p ∈ denied fs).

(** [os.MkdirAll]: nothing to do when the directory exists; otherwise every
    missing directory on the way is created, unless a file is in the way
    or a creation is denied. *)
Definition MkdirAll (p : string) (fs : FS) : FS + PathError :=
  if is_dir fs p then inl fs
  else
    let missing := List.filter (fun q => negb (is_dir fs q)) (p :: filepath.ancestors p) in
    if existsb (is_file fs) missing then
      inr {| Op := "mkdir"; Path := p; Errno := ENOTDIR |}
    else if existsb (is_denied fs) missing then
      inr {| Op := "mkdir"; Path := p; Errno := EACCES |}
    else
      inl {| files := files fs; dirs := list_to_set missing ∪ dirs fs; denied := denied fs |}.

Definition parent_exists (fs : FS) (p : string) : bool :=
  match filepath.Dir p with
  | Some d => is_dir fs d
  | None => true
  end.

(** [os.WriteFile]: create or truncate, then write everything. *)
Definition WriteFile (p data : string) (fs : FS) : FS + PathError :=
  if is_dir fs p then inr {| Op := "open"; Path := p; Errno := EISDIR |}
  else if negb (parent_exists fs p) then inr {| Op := "open"; Path := p; Errno := ENOENT |}
  else if is_denied fs p then inr {| Op := "open"; Path := p; Errno := EACCES |}
  else inl {| files := <[p := data]> (files fs); dirs := dirs fs; denied := denied fs |}.

(** [os.Remove] of a file; the caller ignores its error. *)
Definition Remove (p : string) (fs : FS) : FS :=
  {| files := delete p (files fs); dirs := dirs fs; denied := denied fs |}.

(** [os.RemoveAll]: the path and everything below it. *)
Definition RemoveAll (d : string) (fs : FS) : FS :=
  {| files := filter (fun kv => filepath.under d kv.1 = false) (files fs);
     dirs := filter (fun p => filepath.under d p = false) (dirs fs);
     denied := denied fs |}.

(** Nothing is left at or below [d]. *)
Definition gone (d : string) (fs : FS) : Prop :=
  forall p, filepath.under d p = true -> (p ∉ dirs fs) /\ (files fs !! p = None).

End os.

(** ** Time and contexts *)

Abbreviation Time := Z (only parsing).
Abbreviation Duration := Z (only parsing).

Definition Millisecond : Duration := 1000000.
Definition Second : Duration := 1000 * Millisecond.
Definition Minute : Duration := 60 * Second.

(** [t.Sub(u)]. *)
Definition time_Sub (t u : Time) : Duration := t - u.

Inductive ctxError := Canceled | DeadlineExceeded.

(** A [context.Context]: a deadline, if it has one. [context.Background]
    has none. *)
Record Context := { deadline : option Time }.

Definition Background : Context := {| deadline := None |}.

(** [context.WithTimeout(parent, d)] called at instant [now]. *)
Definition WithTimeout (parent : Context) (d : Duration) (now : Time) : Context :=
  match deadline parent with
  | Some t => {| deadline := Some (Z.min t (now + d)) |}
  | None => {| deadline := Some (now + d) |}
  end.

(** [ctx.Err()] evaluated at instant [now]. *)
Definition ctx_Err (ctx : Context) (now : Time) : option ctxError :=
  match deadline ctx with
  | Some t => if t <=? now then Some DeadlineExceeded else None
  | None => None
  end.

(** ** Errors *)

(** How the interpreter process ended, as [cmd.Run] sees it. *)
Inductive ExitState :=
  | Exited (code : Z)
  | Signaled
  | NotStarted (msg : string).

(** The Go [error] values of the package. *)
Inductive error :=
  | ErrSessionGone
  | ErrCreateDir (cause : PathError)
  | ErrInitState (cause : PathError)
  | ErrCreateScript (cause : PathError)
  | ErrContext (e : ctxError)
  | ErrExit (code : Z)
  | ErrSignal
  | ErrStart (msg : string).

(** [err.Error()]. *)
Definition Error_text (e : error) : string :=
  match e with
  | ErrSessionGone => "session is no longer running"
  | ErrCreateDir c => "failed to create session directory: " +:+ PathError_Error c
  | ErrInitState c => "failed to initialize session state: " +:+ PathError_Error c
  | ErrCreateScript c => "failed to create execution script: " +:+ PathError_Error c
  | ErrContext Canceled => "context canceled"
  | ErrContext DeadlineExceeded => "context deadline exceeded"
  | ErrExit code => "exit status " +:+ pretty code
  | ErrSignal => "signal: killed"
  | ErrStart msg => msg
  end.

(** The error of [cmd.Run()]. *)
Definition Run_error (x : ExitState) : option error :=
  match x with
  | Exited code => if code =? 0 then None else Some (ErrExit code)
  | Signaled => Some ErrSignal
  | NotStarted msg => Some (ErrStart msg)
  end.

(** ** Sessions and the manager *)

Record Session := {
  ID : string;
  sessionDir : string;
  statePath : string;
  lastUsed : Time;
  isRunning : bool
}.

Definition loc := nat.

Record Manager := {
  sessions : gmap string loc;
  baseDir : string
}.

(** The mutable world: the session objects, the manager singleton and the
    file system. *)
Record World := {
  heap : gmap loc Session;
  manager : Manager;
  fs : FS
}.

Definition state_header : string := "# Python session state file" +:+ nl.
Definition state_file_name : string := "session_state.py".

(** ** The interpreter *)

(** What the composed script observes of a Python value:
    [inspect.ismodule(value)] and the text of [repr(value)], [None] when
    rendering the value raises. *)
Record PyVal := { is_module : bool; py_repr : option string }.

(** The top-level namespace, a dict in insertion order. *)
Abbreviation Bindings := (list (string * PyVal)) (only parsing).

Fixpoint bind (name : string) (v : PyVal) (bs : list (string * PyVal)) : list (string * PyVal) :=
  match bs with
  | [] => [(name, v)]
  | (n, w) :: rest => if String.eqb n name then (n, v) :: rest else (n, w) :: bind name v rest
  end.

Fixpoint unbind (name : string) (bs : list (string * PyVal)) : list (string * PyVal) :=
  match bs with
  | [] => []
  | (n, w) :: rest => if String.eqb n name then rest else (n, w) :: unbind name rest
  end.

(** An exception that leaves a piece of code: whether its class derives
    from [Exception] (SystemExit and KeyboardInterrupt do not), what the
    interpreter prints on the error stream when nothing catches it, and the
    exit status of the process in that case. *)
Record PyExc := { is_Exception : bool; report : string; exit_status : Z }.

(** The outcome of running a piece of code at top level: the bindings it
    leaves, what it printed on the two streams, and the exception that
    ended it, if one did. *)
Inductive PyResult :=
  | PyDone (bs : Bindings) (out err : string)
  | PyRaise (e : PyExc) (bs : Bindings) (out err : string).

(** What happens to the interpreter process from outside. A kill carries
    what had been captured of the current phase by then; a kill during the
    snapshot carries how many characters of the new state file had reached
    the disk. *)
Inductive Fate :=
  | Undisturbed
  | CannotStart (msg : string)
  | KilledInReload (out err : string)
  | KilledInCode (out err : string)
  | KilledInSnapshot (flushed : nat).

Record ProcResult := { p_stdout : string; p_stderr : string; p_exit : ExitState }.

Definition module_value (name : string) : PyVal :=
  {| is_module := true; py_repr := Some ("<module '" +:+ name +:+ "'>") |}.

Definition file_value (path : string) : PyVal :=
  {| is_module := false;
     py_repr := Some ("<_io.TextIOWrapper name='" +:+ path +:+ "' mode='w' encoding='UTF-8'>") |}.

Definition str_value (text : string) : PyVal :=
  {| is_module := false; py_repr := Some ("'" +:+ text +:+ "'") |}.

(** The namespace of a fresh [__main__] module. *)
Definition initial_globals (script : string) : list (string * PyVal) :=
  [("__name__", str_value "__main__"); ("__file__", str_value script);
   ("__builtins__", module_value "builtins")].

Section Script.

(** [python text bs]: the interpreter runs [text] at top level with the
    bindings [bs]. *)
Variable python : string -> list (string * PyVal) -> PyResult.

(** [strconv.Quote], the rendering of the verb %q. *)
Variable Quote : string -> string.

(** *** The script text (the format string of ExecuteCode) *)

Definition script_reload (statePath : string) : string :=
  nl +:+
  "# Import the session state" +:+ nl +:+
  "try:" +:+ nl +:+
  "    exec(open(" +:+ Quote statePath +:+ ").read())" +:+ nl +:+
  "except Exception as e:" +:+ nl +:+
  "    pass  # Ignore errors when loading state" +:+ nl +:+
  nl +:+
  "# Execute the provided code" +:+ nl.

Definition script_snapshot (statePath : string) : string :=
  nl +:+
  nl +:+
  "# Save important variables to session state" +:+ nl +:+
  "import inspect, sys" +:+ nl +:+
  "with open(" +:+ Quote statePath +:+ ", " +:+ dq +:+ "w" +:+ dq +:+ ") as state_file:" +:+ nl +:+
  "    state_file.write(" +:+ dq +:+ "# Python session state file\n" +:+ dq +:+ ")" +:+ nl +:+
  "    for name, value in list(locals().items()):" +:+ nl +:+
  "        if not name.startswith(" +:+ dq +:+ "_" +:+ dq +:+ ") and name != " +:+ dq +:+ "state_file"
    +:+ dq +:+ " and not inspect.ismodule(value):" +:+ nl +:+
  "            try:" +:+ nl +:+
  "                state_file.write(" +:+ dq +:+ "{} = {!r}\n" +:+ dq +:+ ".format(name, value))" +:+ nl +:+
  "            except:" +:+ nl +:+
  "                pass" +:+ nl.

Definition scriptContent (statePath code : string) : string :=
  script_reload statePath +:+ code +:+ script_snapshot statePath.

(** *** What the script does, phase by phase *)

(** [try: exec(open(statePath).read()) / except Exception as e: pass].
    A missing state file makes [open] raise an OSError, which the
    handler swallows; so is every exception deriving from [Exception]
    raised by the state text, with the bindings made before it kept and
    the handler's name [e] unbound afterwards. Any other exception leaves
    the block. *)
Definition reload (script statePath : string) (fs : FS) : PyResult :=
  match files fs !! statePath with
  | None => PyDone (unbind "e" (initial_globals script)) "" ""
  | Some text =>
      match python text (initial_globals script) with
      | PyDone bs out err => PyDone bs out err
      | PyRaise e bs out err =>
          if is_Exception e then PyDone (unbind "e" bs) out err
          else PyRaise e bs out err
      end
  end.

(** The condition of the [if] inside the snapshot loop. *)
Definition snapshot_keeps (name : string) (value : PyVal) : bool :=
  negb (String.prefix "_" name) && negb (String.eqb name "state_file") && negb (is_module value).

(** One iteration of the loop: a line for a kept name, nothing for a
    name whose rendering raises (the bare [except] passes). *)
Definition snapshot_line (name : string) (value : PyVal) : string :=
  if snapshot_keeps name value then
    match py_repr value with
    | Some r => name +:+ " = " +:+ r +:+ nl
    | None => ""
    end
  else "".

Fixpoint snapshot_lines (bs : list (string * PyVal)) : string :=
  match bs with
  | [] => ""
  | (name, value) :: rest => snapshot_line name value +:+ snapshot_lines rest
  end.

(** Everything the [with] block writes, given the bindings after the
    caller's code: [import inspect, sys] and [as state_file] bind three
    more names before [locals()] is listed. *)
Definition snapshot_bindings (statePath : string) (bs : list (string * PyVal)) : list (string * PyVal) :=
  bind "state_file" (file_value statePath)
    (bind "sys" (module_value "sys") (bind "inspect" (module_value "inspect") bs)).

Definition snapshot_text (statePath : string) (bs : list (string * PyVal)) : string :=
  state_header +:+ snapshot_lines (snapshot_bindings statePath bs).

Definition killed (out err : string) : ProcResult :=
  {| p_stdout := out; p_stderr := err; p_exit := Signaled |}.

(** An exception reached the top level: the interpreter prints its report
    and exits with its status. *)
Definition crashed (e : PyExc) (out err : string) : ProcResult :=
  {| p_stdout := out; p_stderr := err +:+ report e; p_exit := Exited (exit_status e) |}.

Definition OSError_exc (c : PathError) : PyExc :=
  {| is_Exception := true;
     report := "Traceback (most recent call last):" +:+ nl +:+ "OSError: " +:+ PathError_Error c +:+ nl;
     exit_status := 1 |}.

Definition set_file (p data : string) (fs : FS) : FS :=
  {| files := <[p := data]> (files fs); dirs := dirs fs; denied := denied fs |}.

(** [python3 script] on the composed script. *)
Definition run_script (script statePath code : string) (fate : Fate) (fs : FS) : ProcResult * FS :=
  match fate with
  | CannotStart msg => ({| p_stdout := ""; p_stderr := ""; p_exit := NotStarted msg |}, fs)
  | KilledInReload out err => (killed out err, fs)
  | _ =>
      match reload script statePath fs with
      | PyRaise e _ out err => (crashed e out err, fs)
      | PyDone bs1 out1 err1 =>
          match fate with
          | KilledInCode out err => (killed (out1 +:+ out) (err1 +:+ err), fs)
          | _ =>
              match python code bs1 with
              | PyRaise e _ out2 err2 => (crashed e (out1 +:+ out2) (err1 +:+ err2), fs)
              | PyDone bs2 out2 err2 =>
                  let out := out1 +:+ out2 in
                  let err := err1 +:+ err2 in
                  (* open(statePath, "w") truncates the file *)
                  match os.WriteFile statePath "" fs with
                  | inr c => (crashed (OSError_exc c) out err, fs)
                  | inl fs1 =>
                      let text := snapshot_text statePath bs2 in
                      match fate with
                      | KilledInSnapshot flushed =>
                          (killed out err, set_file statePath (String.substring 0 flushed text) fs1)
                      | _ =>
                          ({| p_stdout := out; p_stderr := err; p_exit := Exited 0 |},
                           set_file statePath text fs1)
                      end
                  end
              end
          end
      end
  end.


End Script.

(** ** internal/session *)

(** What one call of ExecuteCode reads from its environment: the two
    readings of the clock (for [lastUsed] and for the script name), what
    happens to the interpreter process, and the instant at which
    [ctx.Err()] is evaluated after [cmd.Run] returned. *)
Record ExecEnv := {
  t_used : Time;
  t_name : Time;
  fate : Fate;
  t_done : Time
}.

(** What one call of createNewSession reads from its environment:
    [uuid.New().String()] and [time.Now()]. *)
Record CreateEnv := {
  new_uuid : string;
  t_created : Time
}.

Definition set_lastUsed (t : Time) (s : Session) : Session :=
  {| ID := ID s; sessionDir := sessionDir s; statePath := statePath s;
     lastUsed := t; isRunning := isRunning s |}.

Definition set_isRunning (b : bool) (s : Session) : Session :=
  {| ID := ID s; sessionDir := sessionDir s; statePath := statePath s;
     lastUsed := lastUsed s; isRunning := b |}.

Definition set_sessions (m : gmap string loc) (mgr : Manager) : Manager :=
  {| sessions := m; baseDir := baseDir mgr |}.

Section Engine.

Variable python : string -> list (string * PyVal) -> PyResult.
Variable Quote : string -> string.

Definition tempScriptPath (s : Session) (env : ExecEnv) : string :=
  filepath.Join (sessionDir s) ("exec_" +:+ pretty (t_name env) +:+ ".py").

(** [func (s *Session) ExecuteCode(ctx, code) (string, string, error)]:
    the three results, the session object after the call and the file
    system after the call. *)
Definition ExecuteCode (s : Session) (ctx : Context) (code : string) (env : ExecEnv) (fs : FS)
  : (string * string * option error) * Session * FS :=
  if negb (isRunning s) then
    (("", "", Some ErrSessionGone), s, fs)
  else
    let s := set_lastUsed (t_used env) s in
    let script := tempScriptPath s env in
    match os.WriteFile script (scriptContent Quote (statePath s) code) fs with
    | inr c => (("", "", Some (ErrCreateScript c)), s, fs)
    | inl fs =>
        let '(pr, fs) := run_script python script (statePath s) code (fate env) fs in
        (* defer os.Remove(tempScriptPath) *)
        let fs := os.Remove script fs in
        match ctx_Err ctx (t_done env) with
        | Some DeadlineExceeded => (("", "", Some (ErrContext DeadlineExceeded)), s, fs)
        | _ => ((p_stdout pr, p_stderr pr, Run_error (p_exit pr)), s, fs)
        end
    end.

(** [func (s *Session) Cleanup()]. *)
Definition Cleanup (s : Session) (fs : FS) : Session * FS :=
  if isRunning s then (set_isRunning false s, os.RemoveAll (sessionDir s) fs)
  else (s, fs).

(** [NewManager] on a given file system. The error of MkdirAll is
    dropped, as in the source. *)
Definition tempBase : string := "/tmp/python-sessions".

Definition NewManager (fs : FS) : World :=
  {| heap := ∅;
     manager := {| sessions := ∅; baseDir := tempBase |};
     fs := match os.MkdirAll tempBase fs with inl fs' => fs' | inr _ => fs end |}.

(** [func (m *Manager) createNewSession(providedID)], returning the
    session pointer or the error. *)
Definition createNewSession (env : CreateEnv) (providedID : string) (w : World)
  : (loc + error) * World :=
  let sessionID := if String.eqb providedID "" then new_uuid env else providedID in
  let dir := filepath.Join (baseDir (manager w)) sessionID in
  match os.MkdirAll dir (fs w) with
  | inr c => (inr (ErrCreateDir c), w)
  | inl fs1 =>
      let path := filepath.Join dir state_file_name in
      match os.WriteFile path state_header fs1 with
      | inr c => (inr (ErrInitState c), {| heap := heap w; manager := manager w; fs := fs1 |})
      | inl fs2 =>
          let session :=
            {| ID := sessionID; sessionDir := dir; statePath := path;
               lastUsed := t_created env; isRunning := true |} in
          let l := fresh (dom (heap w)) in
          (inl l,
           {| heap := <[l := session]> (heap w);
              manager := set_sessions (<[sessionID := l]> (sessions (manager w))) (manager w);
              fs := fs2 |})
      end
  end.

(** [func (m *Manager) GetOrCreateSession(id)], returning the session
    pointer or the error. *)
Definition GetOrCreateSession (env : CreateEnv) (id : string) (w : World)
  : (loc + error) * World :=
  let live :=
    if negb (String.eqb id "") then
      match sessions (manager w) !! id with
      | Some l =>
          match heap w !! l with
          | Some session => if isRunning session then Some l else None
          | None => None
          end
      | None => None
      end
    else None in
  match live with
  | Some l => (inl l, w)
  | None => createNewSession env id w
  end.

(** One iteration of the loop of CleanupSessions. *)
Definition sweep_entry (now : Time) (maxAge : Duration) (w : World) (entry : string * loc) : World :=
  match heap w !! entry.2 with
  | Some session =>
      if time_Sub now (lastUsed session) >? maxAge then
        let '(session', fs') := Cleanup session (fs w) in
        {| heap := <[entry.2 := session']> (heap w);
           manager := set_sessions (delete entry.1 (sessions (manager w))) (manager w);
           fs := fs' |}
      else w
  | None => w
  end.

(** The loop of CleanupSessions when [range] visits the entries of the
    map in the given order. *)
Definition CleanupSessions_visiting (order : list (string * loc)) (now : Time)
    (maxAge : Duration) (w : World) : World :=
  foldl (sweep_entry now maxAge) w order.

(** [func (m *Manager) CleanupSessions(maxAge)], with [now] the reading
    of the clock. The order of [range] over a Go map is not specified; the
    order of [map_to_list] stands for it here, and the properties of the
    sweep are proved for every order. *)
Definition CleanupSessions (now : Time) (maxAge : Duration) (w : World) : World :=
  CleanupSessions_visiting (map_to_list (sessions (manager w))) now maxAge w.

(** [GetSessionCount]: a copy of the map. *)
Definition GetSessionCount (w : World) : gmap string loc := sessions (manager w).

(** A method called through a [*Session] that some caller holds. *)
Definition ExecuteCode_at (l : loc) (ctx : Context) (code : string) (env : ExecEnv) (w : World)
  : option (string * string * option error) * World :=
  match heap w !! l with
  | Some s =>
      let '(r, s', fs') := ExecuteCode s ctx code env (fs w) in
      (Some r, {| heap := <[l := s']> (heap w); manager := manager w; fs := fs' |})
  | None => (None, w)
  end.

Definition Cleanup_at (l : loc) (w : World) : World :=
  match heap w !! l with
  | Some s =>
      let '(s', fs') := Cleanup s (fs w) in
      {| heap := <[l := s']> (heap w); manager := manager w; fs := fs' |}
  | None => w
  end.

End Engine.

(** ** internal/models *)

Module models.

Record RequestPayload := { ID : string; Code : string }.

Record ResponsePayload := {
  RID : string;
  Stdout : string;
  Stderr : string;
  Error : string
}.

End models.

(** ** internal/handler *)

Module handler.

(** The package variables. *)
Record Config := {
  ExecutionTimeout : Duration;
  SessionTimeLimit : Duration;
  CleanupInterval : Duration
}.

Definition defaults : Config :=
  {| ExecutionTimeout := 2 * Second;
     SessionTimeLimit := 5 * Minute;
     CleanupInterval := 30 * Second |}.

(** A request as the handler sees it: the method, and the decoded body
    ([None] when the body is not a JSON request payload). *)
Record Request := { Method : string; Body : option models.RequestPayload }.

(** What the handler writes: a plain-text error with its status, a JSON
    payload with status 200, or nothing when the goroutine panics. *)
Inductive Response :=
  | HttpError (status : nat) (body : string)
  | JSON (r : models.ResponsePayload)
  | Panic.

(** What one request reads from its environment. *)
Record Env := {
  t_request : Time;
  create_env : CreateEnv;
  exec_env : ExecEnv;
  t_checked : Time
}.

Definition sendErrorResponse (sessionID message : string) : Response :=
  JSON {| models.RID := sessionID; models.Stdout := ""; models.Stderr := "";
          models.Error := message |}.

(** The end of ExecuteHandler, from the timeout check to the encoding of
    the response: [r] is what ExecuteCode returned, [ctxerr] is
    [ctx.Err()] at the check. *)
Definition respond (sessionID : string) (r : string * string * option error)
    (ctxerr : option ctxError) : Response :=
  let '(stdout, stderr, err) := r in
  match ctxerr with
  | Some DeadlineExceeded => sendErrorResponse sessionID "execution timeout"
  | _ =>
      let response :=
        {| models.RID := sessionID; models.Stdout := stdout; models.Stderr := stderr;
           models.Error := "" |} in
      JSON
        match err with
        | Some e =>
            if String.eqb stderr "" then
              {| models.RID := sessionID; models.Stdout := ""; models.Stderr := "";
                 models.Error := Error_text e |}
            else response
        | None => response
        end
  end.

Definition invalid_payload : string :=
  "{" +:+ dq +:+ "error" +:+ dq +:+ ": " +:+ dq +:+ "Invalid request payload" +:+ dq +:+ "}" +:+ nl.

Section Handler.

Variable python : string -> list (string * PyVal) -> PyResult.
Variable Quote : string -> string.
Variable cfg : Config.

(** [func ExecuteHandler(w, r)] on the world that holds the manager
    singleton. *)
Definition ExecuteHandler (r : Request) (env : Env) (w : World) : Response * World :=
  if negb (String.eqb (Method r) "POST") then
    (HttpError 405 ("Invalid request method" +:+ nl), w)
  else
    match Body r with
    | None => (HttpError 400 invalid_payload, w)
    | Some req =>
        let ctx := WithTimeout Background (ExecutionTimeout cfg) (t_request env) in
        match GetOrCreateSession (create_env env) (models.ID req) w with
        | (inr _, w) => (sendErrorResponse "" "Failed to initialize session", w)
        | (inl session, w) =>
            match ExecuteCode_at python Quote session ctx (models.Code req) (exec_env env) w with
            | (Some result, w) =>
                match heap w !! session with
                | Some s => (respond (ID s) result (ctx_Err ctx (t_checked env)), w)
                | None => (Panic, w)
                end
            | (None, w) => (Panic, w)
            end
        end
    end.

End Handler.

End handler.

(** ** Runs of the service *)

(** The calls that clients of the package can make on a world. *)
Inductive Call :=
  | CallGetOrCreateSession (env : CreateEnv) (id : string)
  | CallExecuteCode (l : loc) (ctx : Context) (code : string) (env : ExecEnv)
  | CallCleanupSessions (now : Time) (maxAge : Duration)
  | CallCleanup (l : loc).

Section Runs.

Variable python : string -> list (string * PyVal) -> PyResult.
Variable Quote : string -> string.

Definition call (w : World) (c : Call) : World :=
  match c with
  | CallGetOrCreateSession env id => (GetOrCreateSession env id w).2
  | CallExecuteCode l ctx code env => (ExecuteCode_at python Quote l ctx code env w).2
  | CallCleanupSessions now maxAge => CleanupSessions now maxAge w
  | CallCleanup l => Cleanup_at l w
  end.

Definition run (cs : list Call) (w : World) : World := foldl call w cs.

(** Every call except a direct [Session.Cleanup]. *)
Definition registry_call (c : Call) : bool :=
  match c with
  | CallCleanup _ => false
  | _ => true
  end.

End Runs.

(** The invariant of the registry: every id of the map refers to an
    allocated session that is running. *)
Definition registry_live (w : World) : Prop :=
  forall id l, sessions (manager w) !! id = Some l ->
    exists s, heap w !! l = Some s /\ isRunning s = true.

(** The storage of a session is in place: its directory exists and its
    state file is there. *)
Definition storage_ready (s : Session) (fs : FS) : Prop :=
  sessionDir s ∈ dirs fs /\ is_Some (files fs !! statePath s).

(** ** Names for the parts of createNewSession *)

Definition new_id (env : CreateEnv) (providedID : string) : string :=
  if String.eqb providedID "" then new_uuid env else providedID.

Definition new_dir (env : CreateEnv) (providedID : string) (w : World) : string :=
  filepath.Join (baseDir (manager w)) (new_id env providedID).

Definition new_session (env : CreateEnv) (providedID : string) (w : World) : Session :=
  {| ID := new_id env providedID;
     sessionDir := new_dir env providedID w;
     statePath := filepath.Join (new_dir env providedID w) state_file_name;
     lastUsed := t_created env;
     isRunning := true |}.

(** The world in which createNewSession has registered its session, given
    the file system it has prepared. *)
Definition registered (env : CreateEnv) (providedID : string) (w : World) (fs2 : FS) : World :=
  {| heap := <[fresh (dom (heap w)) := new_session env providedID w]> (heap w);
     manager := set_sessions (<[new_id env providedID := fresh (dom (heap w))]>
                                (sessions (manager w))) (manager w);
     fs := fs2 |}.

(** ** Names for the parts of CleanupSessions *)

(** The test of the loop: the session has been idle for more than [maxAge]. *)
Definition expired (now : Time) (maxAge : Duration) (s : Session) : bool :=
  time_Sub now (lastUsed s) >? maxAge.

(** What the loop has done so far to the session objects of the world [w0]
    it started from: an object is either untouched, or it was idle, is
    marked dead and, if it was running, has lost its directory. *)
Definition heap_swept (now : Time) (maxAge : Duration) (w0 w : World) : Prop :=
  forall l,
    match heap w0 !! l with
    | None => heap w !! l = None
    | Some s0 =>
        heap w !! l = Some s0 \/
        (expired now maxAge s0 = true /\ heap w !! l = Some (set_isRunning false s0) /\
         (isRunning s0 = true -> os.gone (sessionDir s0) (fs w)))
    end.

(** What stays true of a reclaimed entry until the end of the loop. *)
Definition reclaimed (id : string) (l : loc) (s0 : Session) (w : World) : Prop :=
  sessions (manager w) !! id = None /\
  heap w !! l = Some (set_isRunning false s0) /\
  (isRunning s0 = true -> os.gone (sessionDir s0) (fs w)).

(** ** A small interpreter for examples

    A table of the programs used in the examples below, with the
    behaviour CPython has on each; every other text runs to completion
    without effect. *)

Module Demo.

Definition int_value (n : Z) : PyVal := {| is_module := false; py_repr := Some (pretty n) |}.

Definition NameError (name : string) : PyExc :=
  {| is_Exception := true;
     report := "Traceback (most recent call last):" +:+ nl +:+
               "NameError: name '" +:+ name +:+ "' is not defined" +:+ nl;
     exit_status := 1 |}.

Definition SystemExit (code : Z) : PyExc :=
  {| is_Exception := false; report := ""; exit_status := code |}.

Definition lookup_repr (name : string) (bs : list (string * PyVal)) : option string :=
  match List.find (fun b => String.eqb b.1 name) bs with
  | Some b => py_repr b.2
  | None => None
  end.

(** One line of code that binds [a] to an object whose [repr] is the
    text [exit()]. *)
Definition make_a : string := "a = type('E', (), {'__repr__': lambda s: 'exit()'})()".

Definition exit_repr_value : PyVal := {| is_module := false; py_repr := Some "exit()" |}.

Definition python (text : string) (bs : list (string * PyVal)) : PyResult :=
  if String.eqb text "x = 42" then PyDone (bind "x" (int_value 42) bs) "" ""
  else if String.eqb text (state_header +:+ "x = 42" +:+ nl) then
    PyDone (bind "x" (int_value 42) bs) "" ""
  else if String.eqb text "x = 7" then PyDone (bind "x" (int_value 7) bs) "" ""
  else if String.eqb text "state_file = 5" then PyDone (bind "state_file" (int_value 5) bs) "" ""
  else if String.eqb text "print(x)" then
    match lookup_repr "x" bs with
    | Some r => PyDone bs (r +:+ nl) ""
    | None => PyRaise (NameError "x") bs "" ""
    end
  else if String.eqb text "print(undefined_variable)" then
    PyRaise (NameError "undefined_variable") bs "" ""
  else if String.eqb text "print('hi'); import sys; sys.exit(1)" then
    PyRaise (SystemExit 1) (bind "sys" (module_value "sys") bs) ("hi" +:+ nl) ""
  else if String.eqb text make_a then PyDone (bind "a" exit_repr_value bs) "" ""
  else if String.eqb text (state_header +:+ "a = exit()" +:+ nl) then
    PyRaise (SystemExit 0) bs "" ""
  else PyDone bs "" "".

(** %q on a path without quotes, backslashes or control characters. *)
Definition Quote (s : string) : string := dq +:+ s +:+ dq.

Definition base : string := "/tmp/python-sessions".

(** An empty disk on which the base directory exists. *)
Definition disk : FS :=
  {| files := ∅; dirs := {[ "/tmp"; base ]}; denied := ∅ |}.

Definition world0 : World := NewManager disk.

Definition create (uuid : string) (t : Time) : CreateEnv := {| new_uuid := uuid; t_created := t |}.

Definition quiet (t : Time) : ExecEnv :=
  {| t_used := t; t_name := t; fate := Undisturbed; t_done := t + Millisecond |}.

(** A session as created for the id [a] at instant 0, and the disk after
    its creation. *)
Definition sess_a : Session :=
  {| ID := "a"; sessionDir := filepath.Join base "a";
     statePath := filepath.Join (filepath.Join base "a") state_file_name;
     lastUsed := 0; isRunning := true |}.

Definition world_a : World := (GetOrCreateSession (create "u1" 0) "a" world0).2.

(** The world after [x = 42] ran in session [a]. *)
Definition world_x : World :=
  (ExecuteCode_at python Quote 0%nat Background "x = 42" (quiet 10) world_a).2.


(** A call at instant [t] whose deadline, 2 seconds after [t], has passed
    when the interpreter run is over. *)
Definition ctx_at (t : Time) : Context := WithTimeout Background (2 * Second) t.

Definition late (t : Time) (f : Fate) : ExecEnv :=
  {| t_used := t; t_name := t; fate := f; t_done := t + 2 * Second |}.


(** Session [a] in [world_x]. *)
Definition sess_x : Session := set_lastUsed 10 sess_a.

(** A disk on which nothing can be created under the base directory for
    the id [a]. *)
Definition full_disk : FS :=
  {| files := ∅; dirs := {[ "/tmp"; base ]}; denied := {[ filepath.Join base "a" ]} |}.

(** A request that sleeps in session [a], and an environment in which
    the interpreter is killed by the deadline. *)
Definition sleep : string := "import time; time.sleep(3)".

Definition request : handler.Request :=
  {| handler.Method := "POST";
     handler.Body := Some {| models.ID := "a"; models.Code := sleep |} |}.

Definition henv : handler.Env :=
  {| handler.t_request := 20;
     handler.create_env := create "u2" 20;
     handler.exec_env := late 20 (KilledInCode "" "");
     handler.t_checked := 20 + 2 * Second |}.

Definition timeout_payload : models.ResponsePayload :=
  {| models.RID := "a"; models.Stdout := ""; models.Stderr := "";
     models.Error := "execution timeout" |}.

(** A request whose code raises a NameError, in a quiet environment. *)
Definition bad_request : handler.Request :=
  {| handler.Method := "POST";
     handler.Body := Some {| models.ID := "a"; models.Code := "print(undefined_variable)" |} |}.

Definition quiet_henv : handler.Env :=
  {| handler.t_request := 20;
     handler.create_env := create "u2" 20;
     handler.exec_env := quiet 20;
     handler.t_checked := 20 + Second |}.

(** A run of the registry without a direct [Cleanup]. *)
Definition calls : list Call :=
  [CallGetOrCreateSession (create "u1" 0) "a";
   CallExecuteCode 0%nat Background "x = 42" (quiet 10);
   CallCleanupSessions (10 * Minute) (5 * Minute)].

(** The world after session [a] was created and [Cleanup] was called on
    it. *)
Definition world_cleaned : World :=
  run python Quote [CallGetOrCreateSession (create "u1" 0) "a"; CallCleanup 0%nat] world0.

End Demo.

(** ** Invariants of the worlds that the calls reach *)

(** A session as createNewSession lays it out under a base directory. *)
Definition laid_out (base : string) (s : Session) : Prop :=
  sessionDir s = filepath.Join base (ID s) /\
  statePath s = filepath.Join (sessionDir s) state_file_name.

(** Every id of the map refers to an allocated session that carries this
    id, and every session object is laid out under the base directory of
    the manager. *)
Definition world_wf (w : World) : Prop :=
  (forall id l, sessions (manager w) !! id = Some l ->
     exists s, heap w !! l = Some s /\ ID s = id) /\
  (forall l s, heap w !! l = Some s -> laid_out (baseDir (manager w)) s).

(** A path element: a string without separator. *)
Fixpoint slash_free (s : string) : bool :=
  match s with
  | EmptyString => true
  | String c r => negb (Ascii.eqb c "/"%char) && slash_free r
  end.

(** ** More example data *)

Module Tour.



(** A request without id, as the bundled client sends it. *)
Definition anonymous : handler.Request :=
  {| handler.Method := "POST";
     handler.Body := Some {| models.ID := ""; models.Code := "x = 42" |} |}.

Definition get_request : handler.Request :=
  {| handler.Method := "GET"; handler.Body := None |}.

End Tour.

(** * Properties *)

(** ** Strings and paths *)

Lemma prefix_append (a b : string) : String.prefix a (a +:+ b) = true.
Proof.
  induction a as [|c a IH]; simpl.
  - by destruct b.
  - destruct (ascii_dec c c); [exact IH | congruence].
Qed.


Lemma append_assoc (a b c : string) : (a +:+ b) +:+ c = a +:+ (b +:+ c).
Proof.
  induction a as [|x a IH]; [done |].
  change (String x ((a +:+ b) +:+ c) = String x (a +:+ (b +:+ c))). by rewrite IH.
Qed.

Lemma under_Join (d f : string) : filepath.under d (filepath.Join d f) = true.
Proof.
  unfold filepath.under, filepath.Join.
  rewrite <- (append_assoc d "/" f), prefix_append. apply orb_true_r.
Qed.



(** ** The file system *)

Lemma WriteFile_inl (p data : string) (fs fs' : FS) :
  os.WriteFile p data fs = inl fs' ->
  files fs' = <[p := data]> (files fs) /\ dirs fs' = dirs fs /\ denied fs' = denied fs.
Proof.
  unfold os.WriteFile. intros H.
  repeat match type of H with (if ?b then _ else _) = _ => destruct b; [discriminate |] end.
  by injection H as <-.
Qed.

Lemma MkdirAll_inl (p : string) (fs fs' : FS) :
  p <> "" -> os.MkdirAll p fs = inl fs' ->
  p ∈ dirs fs' /\ files fs' = files fs /\ denied fs' = denied fs /\ dirs fs ⊆ dirs fs'.
Proof.
  unfold os.MkdirAll. intros Hp H.
  destruct (os.is_dir fs p) eqn:Hd.
  - injection H as <-. split_and!; try done.
    unfold os.is_dir in Hd. apply orb_true_iff in Hd as [Hd | Hd].
    + by apply String.eqb_eq in Hd.
    + by apply bool_decide_eq_true in Hd.
  - simpl in H. rewrite Hd in H. simpl in H.
    repeat match type of H with (if ?b then _ else _) = _ => destruct b; [discriminate |] end.
    injection H as <-. simpl. split_and!; try done; set_solver.
Qed.

Lemma RemoveAll_gone (d : string) (fs : FS) : os.gone d (os.RemoveAll d fs).
Proof.
  intros p Hp. simpl. split.
  - rewrite elem_of_filter. intros [H _]. congruence.
  - apply map_lookup_filter_None. right. intros x _ H. simpl in H. congruence.
Qed.

Lemma gone_RemoveAll (d d' : string) (fs : FS) : os.gone d fs -> os.gone d (os.RemoveAll d' fs).
Proof.
  intros H p Hp. destruct (H p Hp) as [H1 H2]. simpl. split.
  - rewrite elem_of_filter. tauto.
  - apply map_lookup_filter_None. by left.
Qed.

(** ** ExecuteCode *)

Section ExecuteCodeFacts.

Variable python : string -> list (string * PyVal) -> PyResult.
Variable Quote : string -> string.

(** The path of a call that gets as far as running the interpreter. *)
Lemma ExecuteCode_live (s : Session) (ctx : Context) (code : string) (env : ExecEnv) (fs fs1 : FS) :
  isRunning s = true ->
  os.WriteFile (tempScriptPath s env) (scriptContent Quote (statePath s) code) fs = inl fs1 ->
  ExecuteCode python Quote s ctx code env fs =
    let pr := run_script python (tempScriptPath s env) (statePath s) code (fate env) fs1 in
    (match ctx_Err ctx (t_done env) with
     | Some DeadlineExceeded => ("", "", Some (ErrContext DeadlineExceeded))
     | _ => (p_stdout pr.1, p_stderr pr.1, Run_error (p_exit pr.1))
     end,
     set_lastUsed (t_used env) s,
     os.Remove (tempScriptPath s env) pr.2).
Proof.
  intros Hrun Hw. unfold ExecuteCode. rewrite Hrun. simpl.
  change (tempScriptPath (set_lastUsed (t_used env) s) env) with (tempScriptPath s env).
  rewrite Hw.
  destruct (run_script python (tempScriptPath s env) (statePath s) code (fate env) fs1) as [pr fs2].
  simpl. by destruct (ctx_Err ctx (t_done env)) as [[]|].
Qed.

Lemma ExecuteCode_dead (s : Session) (ctx : Context) (code : string) (env : ExecEnv) (fs : FS) :
  isRunning s = false ->
  ExecuteCode python Quote s ctx code env fs = (("", "", Some ErrSessionGone), s, fs).
Proof. intros H. unfold ExecuteCode. by rewrite H. Qed.

Lemma ExecuteCode_no_script (s : Session) (ctx : Context) (code : string) (env : ExecEnv)
    (fs : FS) (c : PathError) :
  isRunning s = true ->
  os.WriteFile (tempScriptPath s env) (scriptContent Quote (statePath s) code) fs = inr c ->
  ExecuteCode python Quote s ctx code env fs =
    (("", "", Some (ErrCreateScript c)), set_lastUsed (t_used env) s, fs).
Proof.
  intros Hrun Hw. unfold ExecuteCode. rewrite Hrun. simpl.
  change (tempScriptPath (set_lastUsed (t_used env) s) env) with (tempScriptPath s env).
  by rewrite Hw.
Qed.

Lemma ExecuteCode_keeps_fields (s : Session) (ctx : Context) (code : string) (env : ExecEnv)
    (fs : FS) :
  let s' := (ExecuteCode python Quote s ctx code env fs).1.2 in
  isRunning s' = isRunning s /\ ID s' = ID s /\ sessionDir s' = sessionDir s /\
  statePath s' = statePath s.
Proof.
  unfold ExecuteCode. destruct (isRunning s) eqn:Hrun; simpl; [| done].
  destruct (os.WriteFile _ _ fs) as [fs1 | c]; simpl; [| done].
  destruct (run_script _ _ _ _ _ fs1) as [pr fs2].
  by destruct (ctx_Err ctx (t_done env)) as [[]|].
Qed.

Lemma world_insert_same (w : World) (l : loc) (s : Session) :
  heap w !! l = Some s ->
  {| heap := <[l := s]> (heap w); manager := manager w; fs := fs w |} = w.
Proof. intros H. destruct w as [h m f]. simpl in *. by rewrite insert_id. Qed.

(** C6. On a session whose [isRunning] flag is false, ExecuteCode returns
    empty output and the error [session is no longer running], whatever
    the context, the code and the environment are; the session object
    (flag and [lastUsed] included) and the file system are left as they
    were, so that no script is written and no interpreter runs; and any
    number of such calls through the pointer leaves the world as it
    was. *)
Theorem dead_session_execute_fails (w : World) (l : loc) (s : Session) (ctx : Context)
    (code : string) (env : ExecEnv) :
  heap w !! l = Some s ->
  isRunning s = false ->
  ExecuteCode python Quote s ctx code env (fs w) = (("", "", Some ErrSessionGone), s, fs w) /\
  Error_text ErrSessionGone = "session is no longer running" /\
  ExecuteCode_at python Quote l ctx code env w = (Some ("", "", Some ErrSessionGone), w) /\
  forall n : nat, run python Quote (replicate n (CallExecuteCode l ctx code env)) w = w.
Proof.
  intros Hl Hdead.
  assert (Hat : ExecuteCode_at python Quote l ctx code env w
                = (Some ("", "", Some ErrSessionGone), w)).
  { unfold ExecuteCode_at. rewrite Hl, (ExecuteCode_dead _ _ _ _ _ Hdead).
    by rewrite world_insert_same. }
  split_and!; [by apply ExecuteCode_dead | done | done |].
  induction n as [|n IH]; [done |].
  simpl. unfold run in IH. simpl. by rewrite Hat.
Qed.

(** C1. When [ctx.Err()] is the deadline error at the check that follows
    the interpreter run, the call returns empty stdout and empty stderr
    together with an error, whatever the process had printed before it
    was killed; on every call that ran the interpreter (the session is
    running and the script was written) that error is
    [context.DeadlineExceeded], which no other failure of the call
    produces. *)
Theorem timeout_discards_output (s : Session) (ctx : Context) (code : string) (env : ExecEnv)
    (fs : FS) :
  ctx_Err ctx (t_done env) = Some DeadlineExceeded ->
  let r := (ExecuteCode python Quote s ctx code env fs).1.1 in
  r.1.1 = "" /\ r.1.2 = "" /\ r.2 <> None /\
  (isRunning s = true ->
   forall fs1,
     os.WriteFile (tempScriptPath s env) (scriptContent Quote (statePath s) code) fs = inl fs1 ->
     r = ("", "", Some (ErrContext DeadlineExceeded))).
Proof.
  intros Hctx. simpl.
  destruct (isRunning s) eqn:Hrun.
  - destruct (os.WriteFile (tempScriptPath s env) (scriptContent Quote (statePath s) code) fs)
      as [fs1 | c] eqn:Hw.
    + rewrite (ExecuteCode_live _ _ _ _ _ _ Hrun Hw). simpl. rewrite Hctx. simpl.
      split_and!; done.
    + rewrite (ExecuteCode_no_script _ _ _ _ _ _ Hrun Hw). simpl.
      split_and!; done.
  - rewrite (ExecuteCode_dead _ _ _ _ _ Hrun). simpl. split_and!; done.
Qed.

End ExecuteCodeFacts.

(** ** The handler *)

Lemma respond_error_no_output (sessionID : string) (r : string * string * option error)
    (c : option ctxError) (p : models.ResponsePayload) :
  handler.respond sessionID r c = handler.JSON p ->
  models.Error p <> "" -> models.Stdout p = "" /\ models.Stderr p = "".
Proof.
  destruct r as [[out err] e]. unfold handler.respond, handler.sendErrorResponse.
  destruct c as [[]|]; destruct e as [e|]; try destruct (String.eqb err "") eqn:He;
    intros H; injection H as <-; simpl; intros Hne; done.
Qed.

Section HandlerFacts.

Variable python : string -> list (string * PyVal) -> PyResult.
Variable Quote : string -> string.

(** What the handler answers once it holds a session. *)
Lemma ExecuteHandler_respond (cfg : handler.Config) (r : handler.Request) (env : handler.Env)
    (w w1 : World) (req : models.RequestPayload) (l : loc) (s : Session) :
  handler.Method r = "POST" ->
  handler.Body r = Some req ->
  GetOrCreateSession (handler.create_env env) (models.ID req) w = (inl l, w1) ->
  heap w1 !! l = Some s ->
  let ctx := WithTimeout Background (handler.ExecutionTimeout cfg) (handler.t_request env) in
  (handler.ExecuteHandler python Quote cfg r env w).1 =
    handler.respond (ID s)
      (ExecuteCode python Quote s ctx (models.Code req) (handler.exec_env env) (fs w1)).1.1
      (ctx_Err ctx (handler.t_checked env)).
Proof.
  intros Hm Hb Hg Hs ctx. unfold handler.ExecuteHandler.
  rewrite Hm, Hb, Hg. simpl. fold ctx. unfold ExecuteCode_at. rewrite Hs.
  pose proof (ExecuteCode_keeps_fields python Quote s ctx (models.Code req)
                (handler.exec_env env) (fs w1)) as (_ & Hid & _).
  destruct (ExecuteCode python Quote s ctx (models.Code req) (handler.exec_env env) (fs w1))
    as [[res s'] fs']. simpl in *.
  by rewrite lookup_insert_eq, Hid.
Qed.

(** C3. A run that fails for another reason than the deadline (the
    interpreter exits with a non-zero status, is killed, or cannot be
    started) makes ExecuteCode return stdout and stderr as captured,
    together with the error of the run. The response of the handler to
    such a request shows the client the error only when the captured
    stderr is empty (and then nothing else); when stderr is not empty the
    response carries both streams as captured and an empty error field. *)
Theorem failure_reported_on_stderr (cfg : handler.Config) (r : handler.Request)
    (env : handler.Env) (w w1 : World) (req : models.RequestPayload) (l : loc) (s : Session)
    (fs1 : FS) (e : error) :
  handler.Method r = "POST" ->
  handler.Body r = Some req ->
  GetOrCreateSession (handler.create_env env) (models.ID req) w = (inl l, w1) ->
  heap w1 !! l = Some s ->
  isRunning s = true ->
  let code := models.Code req in
  let xenv := handler.exec_env env in
  let ctx := WithTimeout Background (handler.ExecutionTimeout cfg) (handler.t_request env) in
  os.WriteFile (tempScriptPath s xenv) (scriptContent Quote (statePath s) code) (fs w1) = inl fs1 ->
  ctx_Err ctx (t_done xenv) = None ->
  ctx_Err ctx (handler.t_checked env) = None ->
  let pr := (run_script python (tempScriptPath s xenv) (statePath s) code (fate xenv) fs1).1 in
  Run_error (p_exit pr) = Some e ->
  (ExecuteCode python Quote s ctx code xenv (fs w1)).1.1 = (p_stdout pr, p_stderr pr, Some e) /\
  (p_stderr pr <> "" ->
   (handler.ExecuteHandler python Quote cfg r env w).1 =
     handler.JSON {| models.RID := ID s; models.Stdout := p_stdout pr;
                     models.Stderr := p_stderr pr; models.Error := "" |}) /\
  (p_stderr pr = "" ->
   (handler.ExecuteHandler python Quote cfg r env w).1 =
     handler.JSON {| models.RID := ID s; models.Stdout := ""; models.Stderr := "";
                     models.Error := Error_text e |}) /\
  (forall p, (handler.ExecuteHandler python Quote cfg r env w).1 = handler.JSON p ->
             models.Error p <> "" -> p_stderr pr = "").
Proof.
  intros Hm Hb Hg Hs Hrun code xenv ctx Hw Hc1 Hc2 pr He.
  rewrite (ExecuteHandler_respond cfg r env w w1 req l s Hm Hb Hg Hs).
  fold ctx code xenv.
  assert (Hr : (ExecuteCode python Quote s ctx code xenv (fs w1)).1.1
               = (p_stdout pr, p_stderr pr, Some e)).
  { rewrite (ExecuteCode_live _ _ _ _ _ _ _ _ Hrun Hw). simpl.
    rewrite Hc1. fold pr. by rewrite He. }
  rewrite Hr, Hc2. unfold handler.respond.
  split_and!; [done | | |].
  - intros Hne. apply String.eqb_neq in Hne. by rewrite Hne.
  - intros ->. done.
  - intros p. destruct (String.eqb (p_stderr pr) "") eqn:Hstderr.
    + intros _ _. by apply String.eqb_eq.
    + intros H. injection H as <-. simpl. done.
Qed.

(** The pointer that GetOrCreateSession returns refers to a session. *)
Lemma GetOrCreateSession_allocated (env : CreateEnv) (id : string) (w w1 : World) (l : loc) :
  GetOrCreateSession env id w = (inl l, w1) -> is_Some (heap w1 !! l).
Proof.
  unfold GetOrCreateSession. intros H.
  destruct (negb (String.eqb id "")); simpl in H.
  - destruct (sessions (manager w) !! id) as [l0|] eqn:Hl0.
    + destruct (heap w !! l0) as [s0|] eqn:Hs0.
      * destruct (isRunning s0).
        -- injection H as <- <-. by eexists.
        -- unfold createNewSession in H.
           destruct (os.MkdirAll _ (fs w)) as [fs1 | c]; [| discriminate].
           destruct (os.WriteFile _ state_header fs1) as [fs2 | c]; [| discriminate].
           injection H as <- <-. simpl. rewrite lookup_insert_eq. by eexists.
      * unfold createNewSession in H.
        destruct (os.MkdirAll _ (fs w)) as [fs1 | c]; [| discriminate].
        destruct (os.WriteFile _ state_header fs1) as [fs2 | c]; [| discriminate].
        injection H as <- <-. simpl. rewrite lookup_insert_eq. by eexists.
    + unfold createNewSession in H.
      destruct (os.MkdirAll _ (fs w)) as [fs1 | c]; [| discriminate].
      destruct (os.WriteFile _ state_header fs1) as [fs2 | c]; [| discriminate].
      injection H as <- <-. simpl. rewrite lookup_insert_eq. by eexists.
  - unfold createNewSession in H.
    destruct (os.MkdirAll _ (fs w)) as [fs1 | c]; [| discriminate].
    destruct (os.WriteFile _ state_header fs1) as [fs2 | c]; [| discriminate].
    injection H as <- <-. simpl. rewrite lookup_insert_eq. by eexists.
Qed.

(** C10. Every response of ExecuteHandler is one of the two plain-text
    errors (wrong method, undecodable body), which carry no output, or a
    JSON payload in which a non-empty error field comes with empty stdout
    and stderr fields. The two payloads built by sendErrorResponse (session
    creation failed, timeout) carry no output; and when ExecuteCode
    returned an error with empty stderr, the captured stdout is cleared
    from the response. *)
Theorem error_response_has_no_output (cfg : handler.Config) (r : handler.Request)
    (env : handler.Env) (w : World) :
  let resp := (handler.ExecuteHandler python Quote cfg r env w).1 in
  (resp = handler.HttpError 405 ("Invalid request method" +:+ nl) \/
   resp = handler.HttpError 400 handler.invalid_payload \/
   exists p, resp = handler.JSON p /\
     (models.Error p <> "" -> models.Stdout p = "" /\ models.Stderr p = "")) /\
  (forall id msg, handler.sendErrorResponse id msg =
     handler.JSON {| models.RID := id; models.Stdout := ""; models.Stderr := "";
                     models.Error := msg |}) /\
  (forall id out e c, c <> Some DeadlineExceeded ->
     handler.respond id (out, "", Some e) c =
       handler.JSON {| models.RID := id; models.Stdout := ""; models.Stderr := "";
                       models.Error := Error_text e |}).
Proof.
  split_and!.
  - unfold handler.ExecuteHandler.
    destruct (negb (String.eqb (handler.Method r) "POST")); [by left |].
    destruct (handler.Body r) as [req|]; [| right; by left].
    right. right.
    destruct (GetOrCreateSession _ _ w) as [[l | e] w1] eqn:Hg.
    + apply GetOrCreateSession_allocated in Hg as [s Hs].
      unfold ExecuteCode_at. rewrite Hs.
      destruct (ExecuteCode python Quote s _ _ _ (fs w1)) as [[res s'] fs']. simpl.
      rewrite lookup_insert_eq.
      destruct (handler.respond (ID s') res _) as [st body | p |] eqn:Hresp.
      * exfalso. destruct res as [[o x] err]. unfold handler.respond, handler.sendErrorResponse in Hresp.
        by destruct (ctx_Err _ _) as [[]|].
      * exists p. split; [done |]. exact (respond_error_no_output _ _ _ _ Hresp).
      * exfalso. destruct res as [[o x] err]. unfold handler.respond, handler.sendErrorResponse in Hresp.
        by destruct (ctx_Err _ _) as [[]|].
    + eexists. split; [reflexivity |]. simpl. done.
  - done.
  - intros id out e c Hc. unfold handler.respond.
    by destruct c as [[]|].
Qed.

End HandlerFacts.

(** A script that prints, then exits with status 1 without a word on
    stderr: ExecuteCode returns the captured stdout with the error, and the
    response of the handler carries the error alone. *)
Example exit_without_stderr_clears_stdout :
  (ExecuteCode Demo.python Demo.Quote Demo.sess_x (Demo.ctx_at 20)
     "print('hi'); import sys; sys.exit(1)" (Demo.quiet 20) (fs Demo.world_x)).1.1
  = ("hi" +:+ nl, "", Some (ErrExit 1)) /\
  (handler.ExecuteHandler Demo.python Demo.Quote handler.defaults
     {| handler.Method := "POST";
        handler.Body := Some {| models.ID := "a";
                                models.Code := "print('hi'); import sys; sys.exit(1)" |} |}
     Demo.quiet_henv Demo.world_x).1
  = handler.JSON {| models.RID := "a"; models.Stdout := ""; models.Stderr := "";
                    models.Error := "exit status 1" |}.
Proof. split; vm_compute; reflexivity. Qed.

(** ** The registry *)

Lemma createNewSession_cases (env : CreateEnv) (id : string) (w : World) :
  match os.MkdirAll (new_dir env id w) (fs w) with
  | inr c => createNewSession env id w = (inr (ErrCreateDir c), w)
  | inl fs1 =>
      match os.WriteFile (filepath.Join (new_dir env id w) state_file_name) state_header fs1 with
      | inr c =>
          createNewSession env id w =
            (inr (ErrInitState c), {| heap := heap w; manager := manager w; fs := fs1 |})
      | inl fs2 =>
          createNewSession env id w = (inl (fresh (dom (heap w))), registered env id w fs2)
      end
  end.
Proof.
  unfold createNewSession, new_dir, new_id.
  destruct (os.MkdirAll _ (fs w)) as [fs1 | c]; [| done].
  by destruct (os.WriteFile _ state_header fs1) as [fs2 | c].
Qed.


Lemma GetOrCreateSession_cases (env : CreateEnv) (id : string) (w : World) :
  (exists l s, id <> "" /\ sessions (manager w) !! id = Some l /\ heap w !! l = Some s /\
               isRunning s = true /\ GetOrCreateSession env id w = (inl l, w)) \/
  GetOrCreateSession env id w = createNewSession env id w.
Proof.
  unfold GetOrCreateSession.
  destruct (String.eqb id "") eqn:Hid; simpl; [by right |].
  destruct (sessions (manager w) !! id) as [l|] eqn:Hl; [| by right].
  destruct (heap w !! l) as [s|] eqn:Hs; [| by right].
  destruct (isRunning s) eqn:Hrun; [| by right].
  left. exists l, s. apply String.eqb_neq in Hid. done.
Qed.

Lemma GetOrCreateSession_inr (env : CreateEnv) (id : string) (w : World) (e : error) (w' : World) :
  GetOrCreateSession env id w = (inr e, w') ->
  manager w' = manager w /\ sessions (manager w') = sessions (manager w) /\ heap w' = heap w /\
  ((exists c, e = ErrCreateDir c /\ os.MkdirAll (new_dir env id w) (fs w) = inr c) \/
   (exists c fs1, e = ErrInitState c /\ os.MkdirAll (new_dir env id w) (fs w) = inl fs1 /\
      os.WriteFile (filepath.Join (new_dir env id w) state_file_name) state_header fs1 = inr c)).
Proof.
  intros H. pose proof (createNewSession_cases env id w) as Hc.
  destruct (GetOrCreateSession_cases env id w) as [(l & s & _ & _ & _ & _ & Hg) | Hg];
    [congruence |].
  rewrite Hg in H.
  destruct (os.MkdirAll _ (fs w)) as [fs1 | c] eqn:H1.
  - destruct (os.WriteFile _ state_header fs1) as [fs2 | c] eqn:H2.
    + congruence.
    + rewrite Hc in H. injection H as <- <-. simpl. split_and!; try done.
      right. by exists c, fs1.
  - rewrite Hc in H. injection H as <- <-. split_and!; try done. left. by exists c.
Qed.

(** C8. When the directory of the new session or its initial state file
    cannot be created, createNewSession returns an error and no session;
    and whenever GetOrCreateSession returns an error, the error is one of
    these two, and the manager (its sessions map) and the session objects
    are exactly what they were before the call. *)
Theorem storage_failure_leaves_registry (env : CreateEnv) (id : string) (w : World) :
  (forall c, os.MkdirAll (new_dir env id w) (fs w) = inr c ->
     createNewSession env id w = (inr (ErrCreateDir c), w)) /\
  (forall fs1 c,
     os.MkdirAll (new_dir env id w) (fs w) = inl fs1 ->
     os.WriteFile (filepath.Join (new_dir env id w) state_file_name) state_header fs1 = inr c ->
     createNewSession env id w =
       (inr (ErrInitState c), {| heap := heap w; manager := manager w; fs := fs1 |})) /\
  (forall e w', GetOrCreateSession env id w = (inr e, w') ->
     manager w' = manager w /\ sessions (manager w') = sessions (manager w) /\ heap w' = heap w /\
     ((exists c, e = ErrCreateDir c /\ os.MkdirAll (new_dir env id w) (fs w) = inr c) \/
      (exists c fs1, e = ErrInitState c /\ os.MkdirAll (new_dir env id w) (fs w) = inl fs1 /\
         os.WriteFile (filepath.Join (new_dir env id w) state_file_name) state_header fs1 = inr c))).
Proof.
  pose proof (createNewSession_cases env id w) as Hc.
  split_and!.
  - intros c H. by rewrite H in Hc.
  - intros fs1 c H1 H2. by rewrite H1, H2 in Hc.
  - intros e w' H. by apply GetOrCreateSession_inr.
Qed.


(** ** CleanupSessions *)

Lemma expired_precedes (now : Time) (maxAge : Duration) (s : Session) :
  expired now maxAge s = true <-> lastUsed s < now - maxAge.
Proof. unfold expired, time_Sub. rewrite Z.gtb_lt. lia. Qed.

Lemma set_isRunning_same (s : Session) (b : bool) : isRunning s = b -> set_isRunning b s = s.
Proof. destruct s. simpl. by intros ->. Qed.

Lemma Cleanup_running (s : Session) (fs : FS) :
  isRunning s = true -> Cleanup s fs = (set_isRunning false s, os.RemoveAll (sessionDir s) fs).
Proof. unfold Cleanup. by intros ->. Qed.

Lemma Cleanup_dead (s : Session) (fs : FS) : isRunning s = false -> Cleanup s fs = (s, fs).
Proof. unfold Cleanup. by intros ->. Qed.

Lemma Cleanup_marks_dead (s : Session) (fs : FS) : (Cleanup s fs).1 = set_isRunning false s.
Proof.
  destruct (isRunning s) eqn:H.
  - by rewrite Cleanup_running.
  - rewrite Cleanup_dead by done. simpl. symmetry. by apply set_isRunning_same.
Qed.

Lemma Cleanup_gone (s : Session) (fs : FS) (d : string) :
  os.gone d fs -> os.gone d (Cleanup s fs).2.
Proof.
  intros H. unfold Cleanup. destruct (isRunning s); simpl; [| done]. by apply gone_RemoveAll.
Qed.

Lemma Cleanup_removes (s : Session) (fs : FS) :
  isRunning s = true -> os.gone (sessionDir s) (Cleanup s fs).2.
Proof. intros H. rewrite Cleanup_running by done. apply RemoveAll_gone. Qed.

Arguments Cleanup : simpl never.

Lemma sweep_entry_unfold (now : Time) (maxAge : Duration) (w : World) (id : string) (l : loc) :
  sweep_entry now maxAge w (id, l) =
    match heap w !! l with
    | Some cur =>
        if expired now maxAge cur then
          {| heap := <[l := (Cleanup cur (fs w)).1]> (heap w);
             manager := set_sessions (delete id (sessions (manager w))) (manager w);
             fs := (Cleanup cur (fs w)).2 |}
        else w
    | None => w
    end.
Proof.
  unfold sweep_entry, expired. simpl.
  destruct (heap w !! l) as [cur|]; [| done].
  destruct (time_Sub now (lastUsed cur) >? maxAge); [| done].
  by destruct (Cleanup cur (fs w)).
Qed.

Section Sweep.

Variables (now : Time) (maxAge : Duration).


Lemma heap_swept_refl (w : World) : heap_swept now maxAge w w.
Proof. intros l. destruct (heap w !! l); [by left | done]. Qed.

Lemma heap_swept_step (w0 w : World) (e : string * loc) :
  heap_swept now maxAge w0 w -> heap_swept now maxAge w0 (sweep_entry now maxAge w e).
Proof.
  intros Hinv. destruct e as [id l]. rewrite sweep_entry_unfold.
  destruct (heap w !! l) as [cur|] eqn:Hcur; [| done].
  destruct (expired now maxAge cur) eqn:Hexp; [| done].
  intros l'. pose proof (Hinv l') as Hl'. simpl.
  destruct (decide (l = l')) as [<- | Hne].
  - rewrite lookup_insert_eq, Cleanup_marks_dead.
    destruct (heap w0 !! l) as [s0|]; [| congruence].
    destruct Hl' as [Hun | (Hx & Hd & Hg)].
    + assert (cur = s0) as -> by congruence.
      right. split_and!; [done | done |]. intros Hrun. by apply Cleanup_removes.
    + assert (cur = set_isRunning false s0) as -> by congruence.
      right. split_and!; [done | by destruct s0 |].
      intros Hrun. apply Cleanup_gone. by apply Hg.
  - rewrite lookup_insert_ne by done.
    destruct (heap w0 !! l') as [s0|]; [| done].
    destruct Hl' as [Hun | (Hx & Hd & Hg)]; [by left |].
    right. split_and!; [done | done |]. intros Hrun. apply Cleanup_gone. by apply Hg.
Qed.

Lemma heap_swept_fold (w0 w : World) (es : list (string * loc)) :
  heap_swept now maxAge w0 w -> heap_swept now maxAge w0 (foldl (sweep_entry now maxAge) w es).
Proof.
  revert w. induction es as [|e es IH]; intros w H; [done |].
  simpl. apply IH. by apply heap_swept_step.
Qed.


(** The loop only deletes entries. *)
Lemma sessions_step (w : World) (e : string * loc) (id : string) (l : loc) :
  sessions (manager (sweep_entry now maxAge w e)) !! id = Some l ->
  sessions (manager w) !! id = Some l.
Proof.
  destruct e as [id' l']. rewrite sweep_entry_unfold.
  destruct (heap w !! l') as [cur|]; [| done].
  destruct (expired now maxAge cur); [| done]. simpl.
  intros H. apply lookup_delete_Some in H. tauto.
Qed.

Lemma sessions_fold (w : World) (es : list (string * loc)) (id : string) (l : loc) :
  sessions (manager (foldl (sweep_entry now maxAge) w es)) !! id = Some l ->
  sessions (manager w) !! id = Some l.
Proof.
  revert w. induction es as [|e es IH]; intros w H; [done |].
  simpl in H. apply IH in H. by apply sessions_step in H.
Qed.

Lemma reclaimed_step (w : World) (e : string * loc) (id : string) (l : loc) (s0 : Session) :
  reclaimed id l s0 w -> reclaimed id l s0 (sweep_entry now maxAge w e).
Proof.
  intros (Hs & Hh & Hg). destruct e as [id' l']. rewrite sweep_entry_unfold.
  destruct (heap w !! l') as [cur|] eqn:Hcur; [| done].
  destruct (expired now maxAge cur); [| done].
  split_and!; simpl.
  - apply lookup_delete_None. by right.
  - destruct (decide (l' = l)) as [-> | Hne].
    + rewrite lookup_insert_eq, Cleanup_marks_dead.
      assert (cur = set_isRunning false s0) as -> by congruence. by destruct s0.
    + by rewrite lookup_insert_ne.
  - intros Hrun. apply Cleanup_gone. by apply Hg.
Qed.

Lemma reclaimed_fold (w : World) (es : list (string * loc)) (id : string) (l : loc) (s0 : Session) :
  reclaimed id l s0 w -> reclaimed id l s0 (foldl (sweep_entry now maxAge) w es).
Proof.
  revert w. induction es as [|e es IH]; intros w H; [done |].
  simpl. apply IH. by apply reclaimed_step.
Qed.

(** An idle entry that the loop visits ends up reclaimed. *)
Lemma visited_reclaimed (w0 w : World) (es : list (string * loc)) (id : string) (l : loc)
    (s0 : Session) :
  heap_swept now maxAge w0 w ->
  (id, l) ∈ es -> heap w0 !! l = Some s0 -> expired now maxAge s0 = true ->
  reclaimed id l s0 (foldl (sweep_entry now maxAge) w es).
Proof.
  revert w. induction es as [|e es IH]; intros w Hinv Hin Hl Hexp.
  - by apply elem_of_nil in Hin.
  - simpl. apply elem_of_cons in Hin as [<- | Hin].
    + apply reclaimed_fold. rewrite sweep_entry_unfold.
      pose proof (Hinv l) as Hcur. rewrite Hl in Hcur.
      destruct Hcur as [Hun | (_ & Hd & Hg)].
      * rewrite Hun, Hexp. split_and!; simpl.
        -- apply lookup_delete_eq.
        -- by rewrite lookup_insert_eq, Cleanup_marks_dead.
        -- intros Hrun. by apply Cleanup_removes.
      * rewrite Hd. change (expired now maxAge (set_isRunning false s0)) with (expired now maxAge s0).
        rewrite Hexp. split_and!; simpl.
        -- apply lookup_delete_eq.
        -- apply lookup_insert_eq.
        -- intros Hrun. by apply Hg.
    + apply IH; [by apply heap_swept_step | done | done | done].
Qed.

(** An entry whose session is not idle survives every iteration, provided
    the visited entries are entries of the map the loop started from. *)
Lemma kept_fold (w0 w : World) (es : list (string * loc)) (id : string) (l : loc) (s0 : Session) :
  heap_swept now maxAge w0 w ->
  (forall l', (id, l') ∈ es -> l' = l) ->
  heap w0 !! l = Some s0 -> expired now maxAge s0 = false ->
  sessions (manager w) !! id = Some l ->
  sessions (manager (foldl (sweep_entry now maxAge) w es)) !! id = Some l.
Proof.
  revert w. induction es as [|e es IH]; intros w Hinv Hes Hl Hexp Hs; [done |].
  simpl. apply IH; [by apply heap_swept_step | | done | done |].
  - intros l' Hin. apply Hes. by apply elem_of_cons; right.
  - destruct e as [id' l']. rewrite sweep_entry_unfold.
    destruct (heap w !! l') as [cur|] eqn:Hcur; [| done].
    destruct (expired now maxAge cur) eqn:Hx; [| done]. simpl.
    destruct (decide (id' = id)) as [-> | Hne]; [| by rewrite lookup_delete_ne].
    assert (l' = l) as -> by (apply Hes; apply elem_of_cons; by left).
    pose proof (Hinv l) as Hc. rewrite Hl in Hc.
    destruct Hc as [Hun | (Hx' & _)]; congruence.
Qed.

End Sweep.

Lemma Join_nonempty (d f : string) : filepath.Join d f <> "".
Proof. unfold filepath.Join. by destruct d. Qed.


(** What a successful createNewSession leaves behind. *)
Lemma createNewSession_inl (env : CreateEnv) (id : string) (w : World) (l : loc) (w' : World) :
  createNewSession env id w = (inl l, w') ->
  exists fs1 fs2,
    os.MkdirAll (new_dir env id w) (fs w) = inl fs1 /\
    os.WriteFile (filepath.Join (new_dir env id w) state_file_name) state_header fs1 = inl fs2 /\
    l = fresh (dom (heap w)) /\ w' = registered env id w fs2 /\
    heap w !! l = None /\
    storage_ready (new_session env id w) fs2 /\
    files fs2 !! statePath (new_session env id w) = Some state_header.
Proof.
  intros H. pose proof (createNewSession_cases env id w) as Hc.
  destruct (os.MkdirAll _ (fs w)) as [fs1 | c] eqn:H1; [| congruence].
  destruct (os.WriteFile _ state_header fs1) as [fs2 | c] eqn:H2; [| congruence].
  rewrite Hc in H. injection H as <- <-.
  exists fs1, fs2. split_and!; try done.
  - apply not_elem_of_dom, is_fresh.
  - apply MkdirAll_inl in H1 as (Hd & _); [| apply Join_nonempty].
    apply WriteFile_inl in H2 as (Hf & Hdirs & _).
    split; simpl; [by rewrite Hdirs |]. rewrite Hf, lookup_insert_eq. by eexists.
  - apply WriteFile_inl in H2 as (Hf & _). simpl. by rewrite Hf, lookup_insert_eq.
Qed.


(** ** The invariant of the registry *)

Lemma registry_live_NewManager (fs0 : FS) : registry_live (NewManager fs0).
Proof. intros id l H. simpl in H. by rewrite lookup_empty in H. Qed.

Lemma registry_live_GetOrCreateSession (env : CreateEnv) (id : string) (w : World) :
  registry_live w -> registry_live (GetOrCreateSession env id w).2.
Proof.
  intros Hlive.
  destruct (GetOrCreateSession_cases env id w) as [(l & s & _ & _ & _ & _ & ->) | ->]; [done |].
  pose proof (createNewSession_cases env id w) as Hc.
  destruct (os.MkdirAll _ (fs w)) as [fs1 | c]; [| by rewrite Hc].
  destruct (os.WriteFile _ state_header fs1) as [fs2 | c]; rewrite Hc; simpl.
  - intros id' l'. simpl. intros H. apply lookup_insert_Some in H as [[_ <-] | [_ H]].
    + exists (new_session env id w). split; [apply lookup_insert_eq | done].
    + destruct (Hlive id' l' H) as (s & Hs & Hrun). exists s. split; [| done].
      rewrite lookup_insert_ne; [done |]. intros <-.
      pose proof (is_fresh (dom (heap w))) as Hf. apply Hf, elem_of_dom. by eexists.
  - exact Hlive.
Qed.

Lemma registry_live_ExecuteCode (python : string -> list (string * PyVal) -> PyResult)
    (Quote : string -> string) (l : loc) (ctx : Context) (code : string) (env : ExecEnv)
    (w : World) :
  registry_live w -> registry_live (ExecuteCode_at python Quote l ctx code env w).2.
Proof.
  intros Hlive. unfold ExecuteCode_at.
  destruct (heap w !! l) as [s|] eqn:Hs; [| done].
  pose proof (ExecuteCode_keeps_fields python Quote s ctx code env (fs w)) as (Hrun & _).
  destruct (ExecuteCode python Quote s ctx code env (fs w)) as [[r s'] fs']. simpl in *.
  intros id l' H. simpl in H. destruct (Hlive id l' H) as (s0 & Hs0 & Hrun0).
  destruct (decide (l = l')) as [<- | Hne].
  - exists s'. simpl. rewrite lookup_insert_eq. split; [done | congruence].
  - exists s0. simpl. by rewrite lookup_insert_ne.
Qed.

Lemma registry_live_CleanupSessions (now : Time) (maxAge : Duration) (w : World) :
  registry_live w -> registry_live (CleanupSessions now maxAge w).
Proof.
  intros Hlive id l H. unfold CleanupSessions, CleanupSessions_visiting in *.
  pose proof (sessions_fold _ _ _ _ _ _ H) as H0.
  destruct (Hlive id l H0) as (s & Hs & Hrun).
  assert (Hin : (id, l) ∈ map_to_list (sessions (manager w))) by by apply elem_of_map_to_list.
  destruct (expired now maxAge s) eqn:Hx.
  - destruct (visited_reclaimed now maxAge w w _ id l s (heap_swept_refl _ _ w) Hin Hs Hx)
      as (Hnone & _). congruence.
  - exists s. split; [| done].
    pose proof (heap_swept_fold now maxAge w w (map_to_list (sessions (manager w)))
                  (heap_swept_refl _ _ w) l) as Hsw.
    rewrite Hs in Hsw. destruct Hsw as [Hsw | (Hx' & _)]; [done | congruence].
Qed.

Lemma registry_live_run (python : string -> list (string * PyVal) -> PyResult)
    (Quote : string -> string) (cs : list Call) (w : World) :
  forallb registry_call cs = true -> registry_live w -> registry_live (run python Quote cs w).
Proof.
  revert w. induction cs as [|c cs IH]; intros w Hcs Hlive; [done |].
  simpl in Hcs. apply andb_true_iff in Hcs as [Hc Hcs].
  unfold run. simpl. apply IH; [done |].
  destruct c as [env id | l ctx code env | now maxAge | l]; simpl.
  - by apply registry_live_GetOrCreateSession.
  - by apply registry_live_ExecuteCode.
  - by apply registry_live_CleanupSessions.
  - discriminate.
Qed.

(** C7, as stated, fails: after a session is created under the id [a] and
    [Cleanup] is called on it, the map still sends [a] to that session,
    whose [isRunning] flag is false and whose directory is gone. *)
Lemma registry_holds_dead_session_after_Cleanup :
  sessions (manager Demo.world_cleaned) !! "a" = Some 0%nat /\
  heap Demo.world_cleaned !! 0%nat = Some (set_isRunning false Demo.sess_a) /\
  (sessionDir Demo.sess_a ∉ dirs (fs Demo.world_cleaned)) /\
  ~ registry_live Demo.world_cleaned.
Proof.
  assert (H1 : sessions (manager Demo.world_cleaned) !! "a" = Some 0%nat)
    by (vm_compute; reflexivity).
  assert (H2 : heap Demo.world_cleaned !! 0%nat = Some (set_isRunning false Demo.sess_a))
    by (vm_compute; reflexivity).
  split_and!; [exact H1 | exact H2 | |].
  - intros Hin.
    assert (Hb : bool_decide (sessionDir Demo.sess_a ∈ dirs (fs Demo.world_cleaned)) = true)
      by by apply bool_decide_eq_true_2.
    vm_compute in Hb. discriminate.
  - intros Hlive. destruct (Hlive "a" 0%nat H1) as (s & Hs & Hrun).
    pose proof (eq_trans (eq_sym Hs) H2) as E. injection E as ->. discriminate.
Qed.

(** C7, amended. In every world reached from a new manager by calls of
    GetOrCreateSession, ExecuteCode and CleanupSessions, every id of the
    map refers to a running session. A session enters the map only in
    createNewSession, after its directory and its state file have been
    created: the world that holds the new entry holds both. A failed
    construction registers nothing. A direct [Cleanup] of a session marks
    it dead and leaves the map as it is. *)
Theorem registry_live_without_direct_cleanup
    (python : string -> list (string * PyVal) -> PyResult) (Quote : string -> string) :
  (forall (fs0 : FS) (cs : list Call),
     forallb registry_call cs = true ->
     registry_live (run python Quote cs (NewManager fs0))) /\
  (forall env id w l w',
     GetOrCreateSession env id w = (inl l, w') ->
     w' = w \/
     (sessions (manager w') = <[new_id env id := l]> (sessions (manager w)) /\
      heap w !! l = None /\
      heap w' !! l = Some (new_session env id w) /\
      storage_ready (new_session env id w) (fs w'))) /\
  (forall env id w e w',
     GetOrCreateSession env id w = (inr e, w') -> sessions (manager w') = sessions (manager w)) /\
  (forall l w s,
     heap w !! l = Some s ->
     sessions (manager (Cleanup_at l w)) = sessions (manager w) /\
     heap (Cleanup_at l w) !! l = Some (set_isRunning false s)).
Proof.
  split_and!.
  - intros fs0 cs Hcs. apply registry_live_run; [done |]. apply registry_live_NewManager.
  - intros env id w l w' H.
    destruct (GetOrCreateSession_cases env id w) as [(l0 & s & _ & _ & _ & _ & Hg) | Hg].
    + left. congruence.
    + right. rewrite Hg in H.
      apply createNewSession_inl in H as (fs1 & fs2 & _ & _ & -> & -> & Hfresh & Hready & _).
      simpl. split_and!; try done. apply lookup_insert_eq.
  - intros env id w e w' H.
    by destruct (GetOrCreateSession_inr env id w e w' H) as (_ & ? & _).
  - intros l w s Hs. unfold Cleanup_at. rewrite Hs.
    pose proof (Cleanup_marks_dead s (fs w)) as Hd.
    destruct (Cleanup s (fs w)) as [s' fs']. simpl in *.
    by rewrite lookup_insert_eq, Hd.
Qed.

(** ** The state snapshot *)

Section Snapshot.

Variable python : string -> list (string * PyVal) -> PyResult.
Variable Quote : string -> string.





End Snapshot.


(** ** The composed script *)

Lemma append_empty_r (a : string) : a +:+ "" = a.
Proof.
  induction a as [|x a IH]; [done |].
  change (String x (a +:+ "") = String x a). by rewrite IH.
Qed.

Section ComposedScript.

Variable python : string -> list (string * PyVal) -> PyResult.
Variable Quote : string -> string.





End ComposedScript.


(** * Instances of the theorems on the example session *)

(** A call on session [a] whose interpreter is killed by the deadline after
    it had printed something returns nothing but the deadline error. *)
Lemma timeout_discards_output_witness :
  (ExecuteCode Demo.python Demo.Quote Demo.sess_a (Demo.ctx_at 20) Demo.sleep
     (Demo.late 20 (KilledInCode "partial output" "")) (fs Demo.world_a)).1.1
  = ("", "", Some (ErrContext DeadlineExceeded)).
Proof.
  destruct (timeout_discards_output Demo.python Demo.Quote Demo.sess_a (Demo.ctx_at 20)
              Demo.sleep (Demo.late 20 (KilledInCode "partial output" "")) (fs Demo.world_a)
              eq_refl) as (_ & _ & _ & H).
  eapply H; [reflexivity | vm_compute; reflexivity].
Defined.


(** The traceback of a NameError reaches the client on stderr, with an
    empty error field. *)
Lemma failure_reported_on_stderr_witness :
  (handler.ExecuteHandler Demo.python Demo.Quote handler.defaults Demo.bad_request
     Demo.quiet_henv Demo.world_x).1
  = handler.JSON {| models.RID := "a"; models.Stdout := "";
                    models.Stderr := report (Demo.NameError "undefined_variable");
                    models.Error := "" |}.
Proof.
  assert (Hg : GetOrCreateSession (handler.create_env Demo.quiet_henv) "a" Demo.world_x
               = (inl 0%nat, Demo.world_x)) by (vm_compute; reflexivity).
  assert (Hs : heap Demo.world_x !! 0%nat = Some Demo.sess_x) by (vm_compute; reflexivity).
  assert (Hw : os.WriteFile (tempScriptPath Demo.sess_x (Demo.quiet 20))
                 (scriptContent Demo.Quote (statePath Demo.sess_x) "print(undefined_variable)")
                 (fs Demo.world_x)
               = inl (set_file (tempScriptPath Demo.sess_x (Demo.quiet 20))
                        (scriptContent Demo.Quote (statePath Demo.sess_x)
                           "print(undefined_variable)") (fs Demo.world_x)))
    by (vm_compute; reflexivity).
  assert (He : Run_error (p_exit (run_script Demo.python (tempScriptPath Demo.sess_x (Demo.quiet 20))
                  (statePath Demo.sess_x) "print(undefined_variable)" Undisturbed
                  (set_file (tempScriptPath Demo.sess_x (Demo.quiet 20))
                     (scriptContent Demo.Quote (statePath Demo.sess_x)
                        "print(undefined_variable)") (fs Demo.world_x))).1)
               = Some (ErrExit 1)) by (vm_compute; reflexivity).
  destruct (failure_reported_on_stderr Demo.python Demo.Quote handler.defaults Demo.bad_request
              Demo.quiet_henv Demo.world_x Demo.world_x
              {| models.ID := "a"; models.Code := "print(undefined_variable)" |}
              0%nat Demo.sess_x _ (ErrExit 1) eq_refl eq_refl Hg Hs eq_refl Hw eq_refl eq_refl He)
    as (_ & H & _).
  apply H. discriminate.
Defined.



(** ExecuteCode on the session that [Cleanup] has marked dead. *)
Lemma dead_session_execute_fails_witness :
  ExecuteCode_at Demo.python Demo.Quote 0%nat Background "print(x)" (Demo.quiet 30)
    Demo.world_cleaned
  = (Some ("", "", Some ErrSessionGone), Demo.world_cleaned).
Proof.
  assert (H1 : heap Demo.world_cleaned !! 0%nat = Some (set_isRunning false Demo.sess_a))
    by (vm_compute; reflexivity).
  destruct (dead_session_execute_fails Demo.python Demo.Quote Demo.world_cleaned 0%nat
              (set_isRunning false Demo.sess_a) Background "print(x)" (Demo.quiet 30) H1 eq_refl)
    as (_ & _ & H & _).
  exact H.
Defined.

(** The registry after a creation, an execution and a sweep. *)
Lemma registry_live_without_direct_cleanup_witness :
  registry_live (run Demo.python Demo.Quote Demo.calls (NewManager Demo.disk)).
Proof.
  destruct (registry_live_without_direct_cleanup Demo.python Demo.Quote) as (H & _).
  apply H. reflexivity.
Defined.

(** On a disk that refuses the directory of [a], no session is created. *)
Lemma storage_failure_leaves_registry_witness :
  createNewSession (Demo.create "u1" 0) "a" (NewManager Demo.full_disk)
  = (inr (ErrCreateDir {| Op := "mkdir"; Path := filepath.Join Demo.base "a"; Errno := EACCES |}),
     NewManager Demo.full_disk).
Proof.
  destruct (storage_failure_leaves_registry (Demo.create "u1" 0) "a" (NewManager Demo.full_disk))
    as (H & _).
  apply H. vm_compute. reflexivity.
Defined.


(** The response to a request that times out. *)
Lemma error_response_has_no_output_witness :
  exists p,
    (handler.ExecuteHandler Demo.python Demo.Quote handler.defaults Demo.request Demo.henv
       Demo.world_a).1 = handler.JSON p /\
    models.Error p = "execution timeout" /\ models.Stdout p = "" /\ models.Stderr p = "".
Proof.
  destruct (error_response_has_no_output Demo.python Demo.Quote handler.defaults Demo.request
              Demo.henv Demo.world_a) as ([H | [H | (p & Hp & Hout)]] & _).
  - vm_compute in H. discriminate.
  - vm_compute in H. discriminate.
  - exists p. split; [exact Hp |].
    assert (Hq : p = Demo.timeout_payload).
    { assert (Hj : handler.JSON p = handler.JSON Demo.timeout_payload)
        by (rewrite <- Hp; vm_compute; reflexivity).
      by injection Hj. }
    split; [by rewrite Hq |]. apply Hout. by rewrite Hq.
Defined.

(** * Further properties of the code *)

(** ** Path elements *)

Lemma slash_free_app (a b : string) :
  slash_free (a +:+ b) = slash_free a && slash_free b.
Proof.
  induction a as [|c a IH]; [done |].
  change (slash_free (String c (a +:+ b)) = slash_free (String c a) && slash_free b).
  simpl. rewrite IH. by rewrite andb_assoc.
Qed.

Lemma pretty_N_go_slash_free (x : N) (s : string) :
  slash_free s = true -> slash_free (pretty_N_go x s) = true.
Proof.
  revert s. induction (N.lt_wf_0 x) as [x _ IH]; intros s Hs.
  assert (x = 0 \/ 0 < x)%N as [-> | Hx] by lia.
  - by rewrite pretty_N_go_0.
  - rewrite pretty_N_go_step by done. apply IH.
    + by apply N.div_lt.
    + simpl. rewrite Hs, andb_true_r. unfold pretty_N_char. by repeat case_match.
Qed.

Lemma pretty_Z_slash_free (t : Z) : slash_free (pretty t) = true.
Proof.
  assert (HN : forall n : N, slash_free (pretty n) = true).
  { intros n. unfold pretty, pretty_N. case_decide; [done |]. by apply pretty_N_go_slash_free. }
  destruct t as [|p|p]; [done | apply (HN (Npos p)) |].
  change (slash_free ("-" +:+ pretty (Npos p)) = true).
  rewrite slash_free_app, HN. done.
Qed.

Lemma script_name_slash_free (t : Z) : slash_free ("exec_" +:+ pretty t +:+ ".py") = true.
Proof. by rewrite !slash_free_app, pretty_Z_slash_free. Qed.

Lemma Dir_slash_free (f : string) : slash_free f = true -> filepath.Dir f = None.
Proof.
  induction f as [|c f IH]; [done |]. simpl. intros H.
  apply andb_true_iff in H as [Hc Hf]. rewrite (IH Hf).
  apply negb_true_iff in Hc. by rewrite Hc.
Qed.

(** [filepath.Dir] undoes [filepath.Join] on a path element. *)
Lemma Dir_Join (d f : string) :
  slash_free f = true -> filepath.Dir (filepath.Join d f) = Some d.
Proof.
  intros Hf. unfold filepath.Join. induction d as [|c d IH].
  - change (filepath.Dir (String "/"%char f) = Some EmptyString).
    simpl. by rewrite (Dir_slash_free f Hf).
  - change (filepath.Dir (String c (d +:+ "/" +:+ f)) = Some (String c d)).
    simpl. by rewrite IH.
Qed.


(** ** Cleanup *)

Lemma RemoveAll_outside (d p : string) (fs : FS) :
  filepath.under d p = false ->
  files (os.RemoveAll d fs) !! p = files fs !! p /\
  (p ∈ dirs (os.RemoveAll d fs) <-> p ∈ dirs fs).
Proof.
  intros Hp. simpl. split.
  - destruct (files fs !! p) as [x|] eqn:Hx.
    + by apply map_lookup_filter_Some.
    + apply map_lookup_filter_None. by left.
  - rewrite elem_of_filter. tauto.
Qed.

(** X1. [Cleanup] marks the session dead and touches no other field; when
    the session was running, nothing is left at or below its directory,
    and every path outside that directory is as before; a second [Cleanup]
    changes nothing at all. *)
Theorem Cleanup_once_and_for_all (s : Session) (fs : FS) :
  let s1 := (Cleanup s fs).1 in
  let fs1 := (Cleanup s fs).2 in
  s1 = set_isRunning false s /\
  lastUsed s1 = lastUsed s /\
  (isRunning s = true -> os.gone (sessionDir s) fs1) /\
  (isRunning s = false -> fs1 = fs) /\
  (forall p, filepath.under (sessionDir s) p = false ->
     files fs1 !! p = files fs !! p /\ (p ∈ dirs fs1 <-> p ∈ dirs fs)) /\
  denied fs1 = denied fs /\
  Cleanup s1 fs1 = (s1, fs1).
Proof.
  simpl. rewrite Cleanup_marks_dead.
  split_and!; try done.
  - apply Cleanup_removes.
  - intros H. by rewrite Cleanup_dead.
  - intros p Hp. destruct (isRunning s) eqn:H.
    + rewrite Cleanup_running by done. by apply RemoveAll_outside.
    + by rewrite Cleanup_dead.
  - by destruct (isRunning s) eqn:H; [rewrite Cleanup_running | rewrite Cleanup_dead].
Qed.

(** ** What ExecuteCode touches *)

Section ExecuteCodeFrame.

Variable python : string -> list (string * PyVal) -> PyResult.
Variable Quote : string -> string.


(** X2. A call of ExecuteCode never changes the id, the directory, the
    state path or the running flag of the session; on a running session it
    sets [lastUsed] to the instant read at the start of the call, whatever
    happens afterwards (the script cannot be written, the interpreter
    fails, the deadline passes); on a dead session it changes nothing. *)
Theorem ExecuteCode_refreshes_lastUsed (s : Session) (ctx : Context) (code : string)
    (env : ExecEnv) (fs : FS) :
  let s' := (ExecuteCode python Quote s ctx code env fs).1.2 in
  ID s' = ID s /\ sessionDir s' = sessionDir s /\ statePath s' = statePath s /\
  isRunning s' = isRunning s /\
  (isRunning s = true -> s' = set_lastUsed (t_used env) s) /\
  (isRunning s = false -> s' = s).
Proof.
  pose proof (ExecuteCode_keeps_fields python Quote s ctx code env fs) as (H1 & H2 & H3 & H4).
  simpl in *. split_and!; try done.
  - intros Hrun.
    destruct (os.WriteFile (tempScriptPath s env) (scriptContent Quote (statePath s) code) fs)
      as [fs1 | c] eqn:Hw.
    + by rewrite (ExecuteCode_live _ _ _ _ _ _ _ _ Hrun Hw).
    + by rewrite (ExecuteCode_no_script _ _ _ _ _ _ _ _ Hrun Hw).
  - intros Hdead. by rewrite ExecuteCode_dead.
Qed.




End ExecuteCodeFrame.

(** ** A successful call *)

Section Success.

Variable python : string -> list (string * PyVal) -> PyResult.
Variable Quote : string -> string.


End Success.

(** ** Invariants of every run *)

Lemma baseDir_fold (now : Time) (maxAge : Duration) (w : World) (es : list (string * loc)) :
  baseDir (manager (foldl (sweep_entry now maxAge) w es)) = baseDir (manager w).
Proof.
  revert w. induction es as [|[id l] es IH]; intros w; [done |].
  simpl. rewrite IH, sweep_entry_unfold.
  destruct (heap w !! l) as [cur|]; [| done]. by destruct (expired now maxAge cur).
Qed.

(** What a sweep can have done to a session object. *)
Lemma swept_object (now : Time) (maxAge : Duration) (w : World) (es : list (string * loc))
    (l : loc) :
  match heap w !! l with
  | None => heap (foldl (sweep_entry now maxAge) w es) !! l = None
  | Some s0 =>
      heap (foldl (sweep_entry now maxAge) w es) !! l = Some s0 \/
      (expired now maxAge s0 = true /\
       heap (foldl (sweep_entry now maxAge) w es) !! l = Some (set_isRunning false s0))
  end.
Proof.
  pose proof (heap_swept_fold now maxAge w w es (heap_swept_refl _ _ w) l) as H.
  destruct (heap w !! l) as [s0|]; [| done]. destruct H as [H | (H1 & H2 & _)]; eauto.
Qed.

Lemma world_wf_NewManager (fs0 : FS) : world_wf (NewManager fs0).
Proof. split; intros ? ? Hl; simpl in Hl; by rewrite lookup_empty in Hl. Qed.

Section Invariants.

Variable python : string -> list (string * PyVal) -> PyResult.
Variable Quote : string -> string.

(** One call keeps every session object in place, with its id and its
    paths; and a dead session object is never changed again. *)
Lemma call_stable (c : Call) (w : World) (l : loc) (s : Session) :
  heap w !! l = Some s ->
  exists s', heap (call python Quote w c) !! l = Some s' /\
    ID s' = ID s /\ sessionDir s' = sessionDir s /\ statePath s' = statePath s /\
    (isRunning s = false -> s' = s).
Proof.
  intros Hs. destruct c as [env id | l' ctx code env | now maxAge | l']; simpl.
  - exists s. split; [| done].
    destruct (GetOrCreateSession_cases env id w) as [(l0 & s0 & _ & _ & _ & _ & ->) | ->];
      [done |].
    pose proof (createNewSession_cases env id w) as Hc.
    destruct (os.MkdirAll _ (fs w)) as [fs1 | c]; [| by rewrite Hc].
    destruct (os.WriteFile _ state_header fs1) as [fs2 | c]; rewrite Hc; simpl; [| done].
    rewrite lookup_insert_ne; [done |]. intros <-.
    pose proof (is_fresh (dom (heap w))) as Hf. apply Hf, elem_of_dom. by eexists.
  - unfold ExecuteCode_at. destruct (heap w !! l') as [s0|] eqn:Hs0; [| by exists s].
    pose proof (ExecuteCode_keeps_fields python Quote s0 ctx code env (fs w)) as (H1 & H2 & H3 & H4).
    pose proof (ExecuteCode_dead python Quote s0 ctx code env (fs w)) as Hdead.
    destruct (ExecuteCode python Quote s0 ctx code env (fs w)) as [[r s'] fs']. simpl in *.
    destruct (decide (l' = l)) as [-> | Hne].
    + assert (s0 = s) as -> by congruence.
      exists s'. rewrite lookup_insert_eq. split_and!; try done.
      intros Hd. specialize (Hdead Hd). congruence.
    + exists s. by rewrite lookup_insert_ne.
  - pose proof (swept_object now maxAge w (map_to_list (sessions (manager w))) l) as H.
    rewrite Hs in H. unfold CleanupSessions, CleanupSessions_visiting.
    destruct H as [H | [_ H]].
    + by exists s.
    + exists (set_isRunning false s). split_and!; try done.
      intros Hd. by apply set_isRunning_same.
  - unfold Cleanup_at. destruct (heap w !! l') as [s0|] eqn:Hs0; [| by exists s].
    pose proof (Cleanup_marks_dead s0 (fs w)) as Hm.
    destruct (Cleanup s0 (fs w)) as [s' fs']. simpl in *.
    destruct (decide (l' = l)) as [-> | Hne].
    + assert (s0 = s) as -> by congruence.
      exists s'. rewrite lookup_insert_eq, Hm. split_and!; try done.
      intros Hd. by apply set_isRunning_same.
    + exists s. by rewrite lookup_insert_ne.
Qed.

Lemma call_baseDir (c : Call) (w : World) :
  baseDir (manager (call python Quote w c)) = baseDir (manager w).
Proof.
  destruct c as [env id | l' ctx code env | now maxAge | l']; simpl.
  - destruct (GetOrCreateSession_cases env id w) as [(l0 & s0 & _ & _ & _ & _ & ->) | ->];
      [done |].
    pose proof (createNewSession_cases env id w) as Hc.
    destruct (os.MkdirAll _ (fs w)) as [fs1 | c]; [| by rewrite Hc].
    by destruct (os.WriteFile _ state_header fs1) as [fs2 | c]; rewrite Hc.
  - unfold ExecuteCode_at. destruct (heap w !! l') as [s0|]; [| done].
    by destruct (ExecuteCode python Quote s0 ctx code env (fs w)) as [[r s'] fs'].
  - apply baseDir_fold.
  - unfold Cleanup_at. destruct (heap w !! l') as [s0|]; [| done].
    by destruct (Cleanup s0 (fs w)) as [s' fs'].
Qed.

(** New entries of the map and new session objects after one call. *)
Lemma call_new (c : Call) (w : World) :
  (forall id l, sessions (manager (call python Quote w c)) !! id = Some l ->
     sessions (manager w) !! id = Some l \/
     (heap w !! l = None /\
      exists s, heap (call python Quote w c) !! l = Some s /\ ID s = id)) /\
  (forall l s, heap (call python Quote w c) !! l = Some s ->
     is_Some (heap w !! l) \/ laid_out (baseDir (manager w)) s).
Proof.
  destruct c as [env id | l' ctx code env | now maxAge | l']; simpl.
  - destruct (GetOrCreateSession_cases env id w) as [(l0 & s0 & _ & _ & _ & _ & ->) | ->].
    { split; [by left |]. intros l s H. left. by eexists. }
    pose proof (createNewSession_cases env id w) as Hc.
    destruct (os.MkdirAll _ (fs w)) as [fs1 | c].
    2:{ rewrite Hc. split; [by left |]. intros l s H. left. by eexists. }
    destruct (os.WriteFile _ state_header fs1) as [fs2 | c]; rewrite Hc; simpl.
    2:{ split; [by left |]. intros l s H. left. by eexists. }
    split.
    + intros id' l H. apply lookup_insert_Some in H as [[<- <-] | [_ H]]; [| by left].
      right. split; [apply not_elem_of_dom, is_fresh |].
      exists (new_session env id w). by rewrite lookup_insert_eq.
    + intros l s H. apply lookup_insert_Some in H as [[<- <-] | [_ H]].
      * right. done.
      * left. by eexists.
  - unfold ExecuteCode_at. destruct (heap w !! l') as [s0|] eqn:Hs0.
    2:{ split; [by left |]. intros l s H. left. by eexists. }
    destruct (ExecuteCode python Quote s0 ctx code env (fs w)) as [[r s'] fs']. simpl.
    split; [by left |]. intros l s H. left.
    apply lookup_insert_Some in H as [[<- _] | [_ H]]; by eexists.
  - split.
    + intros id l H. left. by apply sessions_fold in H.
    + intros l s H. left.
      pose proof (swept_object now maxAge w (map_to_list (sessions (manager w))) l) as Hsw.
      unfold CleanupSessions, CleanupSessions_visiting in H.
      destruct (heap w !! l) as [s0|]; [by eexists | congruence].
  - unfold Cleanup_at. destruct (heap w !! l') as [s0|] eqn:Hs0.
    2:{ split; [by left |]. intros l s H. left. by eexists. }
    destruct (Cleanup s0 (fs w)) as [s' fs']. simpl.
    split; [by left |]. intros l s H. left.
    apply lookup_insert_Some in H as [[<- _] | [_ H]]; by eexists.
Qed.

Lemma world_wf_call (c : Call) (w : World) : world_wf w -> world_wf (call python Quote w c).
Proof.
  intros [Hkeys Hlay]. pose proof (call_new c w) as [Hn1 Hn2]. split.
  - intros id l H. destruct (Hn1 id l H) as [Hold | [_ Hnew]]; [| done].
    destruct (Hkeys id l Hold) as (s & Hs & Hid).
    destruct (call_stable c w l s Hs) as (s' & Hs' & Hid' & _).
    exists s'. split; [done | congruence].
  - intros l s H. rewrite call_baseDir.
    destruct (Hn2 l s H) as [[s0 Hs0] | Hnew]; [| done].
    destruct (call_stable c w l s0 Hs0) as (s' & Hs' & Hid & Hdir & Hpath & _).
    assert (s' = s) as -> by congruence.
    destruct (Hlay l s0 Hs0) as [Hl1 Hl2]. unfold laid_out. split; congruence.
Qed.


(** X7. No call ever frees a session object or changes its id, its
    directory or its state path; and a session that is dead stays exactly
    as it is through every later call: it is never resurrected, and its
    [lastUsed] is never refreshed. *)
Theorem run_keeps_sessions (cs : list Call) (w : World) (l : loc) (s : Session) :
  heap w !! l = Some s ->
  exists s', heap (run python Quote cs w) !! l = Some s' /\
    ID s' = ID s /\ sessionDir s' = sessionDir s /\ statePath s' = statePath s /\
    (isRunning s = false -> s' = s).
Proof.
  revert w s. induction cs as [|c cs IH]; intros w s Hs.
  - exists s. done.
  - destruct (call_stable c w l s Hs) as (s1 & Hs1 & Hid & Hdir & Hpath & Hdead).
    destruct (IH _ _ Hs1) as (s' & Hs' & Hid' & Hdir' & Hpath' & Hdead').
    exists s'. unfold run in *. simpl. split_and!; try congruence.
    intros Hd. specialize (Hdead Hd). subst s1. by apply Hdead'.
Qed.

End Invariants.

(** ** GetOrCreateSession on a dead entry *)

(** X8. When the id of the request refers to a session that is dead (a
    direct [Cleanup] had marked it), GetOrCreateSession does not return
    it: it goes through createNewSession with the same id; once the
    storage is created, the map sends the id to a new, running session
    object whose state file holds the header only, and the old object is
    still there for whoever holds it, dead as before. *)
Theorem GetOrCreateSession_replaces_dead (env : CreateEnv) (id : string) (w : World)
    (l : loc) (s : Session) :
  id <> "" ->
  sessions (manager w) !! id = Some l ->
  heap w !! l = Some s ->
  isRunning s = false ->
  GetOrCreateSession env id w = createNewSession env id w /\
  forall l' w', GetOrCreateSession env id w = (inl l', w') ->
    l' <> l /\
    sessions (manager w') !! id = Some l' /\
    heap w' !! l = Some s /\
    exists s', heap w' !! l' = Some s' /\ ID s' = id /\ isRunning s' = true /\
               lastUsed s' = t_created env /\
               files (fs w') !! statePath s' = Some state_header.
Proof.
  intros Hid Hl Hs Hdead.
  assert (Hg : GetOrCreateSession env id w = createNewSession env id w).
  { unfold GetOrCreateSession. rewrite Hl, Hs, Hdead. by destruct (negb (String.eqb id "")). }
  split; [done |]. intros l' w' H. rewrite Hg in H.
  apply createNewSession_inl in H as (fs1 & fs2 & _ & _ & -> & -> & Hfresh & _ & Hfile).
  assert (Hne : fresh (dom (heap w)) <> l) by congruence.
  assert (Hnew : new_id env id = id).
  { unfold new_id. apply String.eqb_neq in Hid. by rewrite Hid. }
  simpl. split_and!; [done | | |].
  - rewrite Hnew. apply lookup_insert_eq.
  - by rewrite lookup_insert_ne.
  - exists (new_session env id w). rewrite lookup_insert_eq. split_and!; done.
Qed.

(** ** More on CleanupSessions *)

Section MoreSweep.

Variables (now : Time) (maxAge : Duration).

Lemma sweep_nothing_idle (w : World) (es : list (string * loc)) :
  (forall id l s, (id, l) ∈ es -> heap w !! l = Some s -> expired now maxAge s = false) ->
  foldl (sweep_entry now maxAge) w es = w.
Proof.
  induction es as [|[id l] es IH]; intros H; [done |].
  simpl. assert (Hstep : sweep_entry now maxAge w (id, l) = w).
  { rewrite sweep_entry_unfold. destruct (heap w !! l) as [cur|] eqn:Hcur; [| done].
    rewrite (H id l cur); [done | by apply elem_of_cons; left | done]. }
  rewrite Hstep. apply IH. intros id' l' s Hin. apply (H id' l' s). by apply elem_of_cons; right.
Qed.

(** After a sweep, no entry of the map refers to an idle session. *)
Lemma swept_entries_fresh (w : World) (id : string) (l : loc) (s : Session) :
  sessions (manager (CleanupSessions now maxAge w)) !! id = Some l ->
  heap (CleanupSessions now maxAge w) !! l = Some s ->
  expired now maxAge s = false.
Proof.
  unfold CleanupSessions, CleanupSessions_visiting. intros Hid Hs.
  pose proof (sessions_fold _ _ _ _ _ _ Hid) as Hid0.
  pose proof (swept_object now maxAge w (map_to_list (sessions (manager w))) l) as Hsw.
  destruct (heap w !! l) as [s0|] eqn:Hs0; [| congruence].
  destruct (expired now maxAge s0) eqn:Hx.
  - assert (Hin : (id, l) ∈ map_to_list (sessions (manager w))) by by apply elem_of_map_to_list.
    destruct (visited_reclaimed now maxAge w w _ id l s0 (heap_swept_refl _ _ w) Hin Hs0 Hx)
      as (Hnone & _). congruence.
  - destruct Hsw as [Hsw | [Hx' _]]; congruence.
Qed.

(** X9. CleanupSessions only deletes entries: the map afterwards is
    included in the map before, so that the count of sessions never grows.
    When no session of the map has been idle for more than [maxAge], the
    sweep changes nothing at all; and a second sweep at the same instant
    with the same window changes nothing after the first. *)
Theorem CleanupSessions_shrinks_and_settles (w : World) :
  let w' := CleanupSessions now maxAge w in
  GetSessionCount w' ⊆ GetSessionCount w /\
  (size (GetSessionCount w') <= size (GetSessionCount w))%nat /\
  ((forall id l s, sessions (manager w) !! id = Some l -> heap w !! l = Some s ->
      ~ lastUsed s < now - maxAge) -> w' = w) /\
  CleanupSessions now maxAge w' = w'.
Proof.
  intros w'.
  assert (Hsub : GetSessionCount w' ⊆ GetSessionCount w).
  { apply map_subseteq_spec. intros id l H. unfold w', CleanupSessions, CleanupSessions_visiting in H.
    by apply sessions_fold in H. }
  split_and!; [done | by apply map_subseteq_size | |].
  - intros H. unfold w', CleanupSessions, CleanupSessions_visiting.
    apply sweep_nothing_idle. intros id l s Hin Hs. apply elem_of_map_to_list in Hin.
    destruct (expired now maxAge s) eqn:Hx; [| done].
    apply expired_precedes in Hx. by destruct (H id l s Hin Hs).
  - unfold CleanupSessions at 1. unfold CleanupSessions_visiting.
    apply sweep_nothing_idle. intros id l s Hin Hs. apply elem_of_map_to_list in Hin.
    by apply (swept_entries_fresh w id l s).
Qed.

Lemma sweep_frame_fold (w0 w : World) (es : list (string * loc)) (p : string) :
  heap_swept now maxAge w0 w ->
  (forall id l s, (id, l) ∈ es -> heap w0 !! l = Some s -> expired now maxAge s = true ->
     isRunning s = true -> filepath.under (sessionDir s) p = false) ->
  files (fs (foldl (sweep_entry now maxAge) w es)) !! p = files (fs w) !! p /\
  (p ∈ dirs (fs (foldl (sweep_entry now maxAge) w es)) <-> p ∈ dirs (fs w)) /\
  denied (fs (foldl (sweep_entry now maxAge) w es)) = denied (fs w).
Proof.
  revert w. induction es as [|[id l] es IH]; intros w Hinv Hout; [done |].
  simpl.
  destruct (IH (sweep_entry now maxAge w (id, l))) as (H1 & H2 & H3).
  { by apply heap_swept_step. }
  { intros id' l' s Hin. apply (Hout id' l' s). by apply elem_of_cons; right. }
  rewrite H1, H2, H3. clear IH H1 H2 H3.
  rewrite sweep_entry_unfold.
  destruct (heap w !! l) as [cur|] eqn:Hcur; [| done].
  destruct (expired now maxAge cur) eqn:Hx; [| done]. simpl.
  destruct (isRunning cur) eqn:Hrun; [| by rewrite Cleanup_dead].
  rewrite Cleanup_running by done. simpl.
  pose proof (Hinv l) as Hl.
  destruct (heap w0 !! l) as [s0|] eqn:Hs0; [| congruence].
  assert (cur = s0) as ->.
  { destruct Hl as [Hl | (_ & Hl & _)]; [congruence |].
    assert (cur = set_isRunning false s0) as -> by congruence. discriminate. }
  assert (Hp : filepath.under (sessionDir s0) p = false).
  { apply (Hout id l s0); [by apply elem_of_cons; left | done | done | done]. }
  destruct (RemoveAll_outside (sessionDir s0) p (fs w) Hp) as [Hf Hd].
  simpl in Hf, Hd. by rewrite Hf, Hd.
Qed.

Lemma denied_fold (w : World) (es : list (string * loc)) :
  denied (fs (foldl (sweep_entry now maxAge) w es)) = denied (fs w).
Proof.
  revert w. induction es as [|[id l] es IH]; intros w; [done |].
  simpl. rewrite IH, sweep_entry_unfold.
  destruct (heap w !! l) as [cur|]; [| done].
  destruct (expired now maxAge cur); [| done]. simpl.
  by destruct (isRunning cur) eqn:Hrun; [rewrite Cleanup_running | rewrite Cleanup_dead].
Qed.

(** X10. A sweep removes nothing outside the directories of the sessions
    it reclaims: a path that lies under the directory of no idle, running
    session of the map holds afterwards what it held before, whatever the
    order of the visit; and a session object that is not idle is left as
    it is, whether the map refers to it or not. *)
Theorem CleanupSessions_spares_the_rest (w : World) (order : list (string * loc)) :
  let w' := CleanupSessions_visiting order now maxAge w in
  (forall p,
     (forall id l s, (id, l) ∈ order -> heap w !! l = Some s -> lastUsed s < now - maxAge ->
        isRunning s = true -> filepath.under (sessionDir s) p = false) ->
     files (fs w') !! p = files (fs w) !! p /\ (p ∈ dirs (fs w') <-> p ∈ dirs (fs w))) /\
  denied (fs w') = denied (fs w) /\
  (forall l s, heap w !! l = Some s -> ~ lastUsed s < now - maxAge -> heap w' !! l = Some s).
Proof.
  intros w'. split_and!.
  - intros p H.
    destruct (sweep_frame_fold w w order p (heap_swept_refl _ _ w)) as (H1 & H2 & _); [| done].
    intros id l s Hin Hs Hx. apply (H id l s Hin Hs). by apply expired_precedes.
  - apply denied_fold.
  - intros l s Hs Hnew.
    pose proof (swept_object now maxAge w order l) as Hsw. rewrite Hs in Hsw.
    destruct Hsw as [Hsw | [Hx _]]; [done |]. by apply expired_precedes in Hx.
Qed.

End MoreSweep.

(** ** Use and idleness *)

Section KeepAlive.

Variable python : string -> list (string * PyVal) -> PyResult.
Variable Quote : string -> string.

Lemma ExecuteCode_session_live (s : Session) (ctx : Context) (code : string) (env : ExecEnv)
    (fs : FS) :
  isRunning s = true ->
  (ExecuteCode python Quote s ctx code env fs).1.2 = set_lastUsed (t_used env) s.
Proof.
  intros Hrun.
  destruct (os.WriteFile (tempScriptPath s env) (scriptContent Quote (statePath s) code) fs)
    as [fs1 | c] eqn:Hw.
  - by rewrite (ExecuteCode_live _ _ _ _ _ _ _ _ Hrun Hw).
  - by rewrite (ExecuteCode_no_script _ _ _ _ _ _ _ _ Hrun Hw).
Qed.

Lemma not_expired (now : Time) (maxAge : Duration) (s : Session) :
  now - lastUsed s <= maxAge -> expired now maxAge s = false.
Proof. intros H. unfold expired, time_Sub. rewrite Z.gtb_ltb. by apply Z.ltb_ge. Qed.

(** X11. Use is what ExecuteCode records, and nothing else. A sweep that
    comes no later than [maxAge] after the start of a call of ExecuteCode
    on a running session of the map keeps the session, whatever the call
    did and however long the session had been idle before. A lookup by
    GetOrCreateSession does not count: a session that is idle for more
    than [maxAge] is reclaimed by the sweep that follows the lookup, and
    the pointer that the lookup returned then refers to a dead session. *)
Theorem executing_keeps_session_alive (w : World) (id : string) (l : loc) (s : Session)
    (ctx : Context) (code : string) (env : ExecEnv) (cenv : CreateEnv)
    (now : Time) (maxAge : Duration) :
  id <> "" ->
  sessions (manager w) !! id = Some l ->
  heap w !! l = Some s ->
  isRunning s = true ->
  (now - t_used env <= maxAge ->
   let w2 := CleanupSessions now maxAge (ExecuteCode_at python Quote l ctx code env w).2 in
   sessions (manager w2) !! id = Some l /\
   heap w2 !! l = Some (set_lastUsed (t_used env) s)) /\
  (lastUsed s < now - maxAge ->
   (GetOrCreateSession cenv id w).1 = inl l /\
   let w2 := CleanupSessions now maxAge (GetOrCreateSession cenv id w).2 in
   sessions (manager w2) !! id = None /\
   heap w2 !! l = Some (set_isRunning false s)).
Proof.
  intros Hne Hid Hs Hrun. split.
  - intros Hnow. unfold ExecuteCode_at. rewrite Hs.
    pose proof (ExecuteCode_session_live s ctx code env (fs w) Hrun) as Hs'.
    destruct (ExecuteCode python Quote s ctx code env (fs w)) as [[r s'] fs']. simpl in Hs'.
    subst s'. simpl.
    set (w1 := {| heap := <[l:=set_lastUsed (t_used env) s]> (heap w);
                  manager := manager w; fs := fs' |}).
    assert (Hl1 : heap w1 !! l = Some (set_lastUsed (t_used env) s)) by apply lookup_insert_eq.
    assert (Hx : expired now maxAge (set_lastUsed (t_used env) s) = false)
      by by apply not_expired.
    unfold CleanupSessions, CleanupSessions_visiting. split.
    + apply (kept_fold now maxAge w1 w1 _ id l (set_lastUsed (t_used env) s));
        [apply heap_swept_refl | | done | done | done].
      intros l' Hin. apply elem_of_map_to_list in Hin. simpl in Hin. congruence.
    + pose proof (swept_object now maxAge w1 (map_to_list (sessions (manager w1))) l) as Hsw.
      rewrite Hl1 in Hsw. destruct Hsw as [Hsw | [Hx' _]]; [done | congruence].
  - intros Hold.
    assert (Hg : GetOrCreateSession cenv id w = (inl l, w)).
    { unfold GetOrCreateSession. apply String.eqb_neq in Hne. by rewrite Hne, Hid, Hs, Hrun. }
    rewrite Hg. simpl. split; [done |].
    apply expired_precedes in Hold.
    assert (Hin : (id, l) ∈ map_to_list (sessions (manager w))) by by apply elem_of_map_to_list.
    destruct (visited_reclaimed now maxAge w w _ id l s (heap_swept_refl _ _ w) Hin Hs Hold)
      as (H1 & H2 & _).
    done.
Qed.

End KeepAlive.

(** ** More on the handler *)

Lemma respond_RID (sessionID : string) (r : string * string * option error)
    (c : option ctxError) :
  exists p, handler.respond sessionID r c = handler.JSON p /\ models.RID p = sessionID.
Proof.
  destruct r as [[out err] e]. unfold handler.respond, handler.sendErrorResponse.
  destruct c as [[]|]; destruct e as [e|]; try destruct (String.eqb err ""); eauto.
Qed.

Section MoreHandler.

Variable python : string -> list (string * PyVal) -> PyResult.
Variable Quote : string -> string.
Variable cfg : handler.Config.

(** The session that GetOrCreateSession returns carries the resolved id. *)
Lemma GetOrCreateSession_inl_ID (env : CreateEnv) (id : string) (w w1 : World) (l : loc) :
  world_wf w ->
  GetOrCreateSession env id w = (inl l, w1) ->
  exists s, heap w1 !! l = Some s /\ ID s = new_id env id.
Proof.
  intros [Hkeys _] H.
  destruct (GetOrCreateSession_cases env id w) as [(l0 & s0 & Hne & Hl0 & Hs0 & _ & Hg) | Hg].
  - rewrite Hg in H. injection H as <- <-. exists s0. split; [done |].
    destruct (Hkeys id l0 Hl0) as (s & Hs & Hid). assert (s = s0) as -> by congruence.
    unfold new_id. apply String.eqb_neq in Hne. by rewrite Hne.
  - rewrite Hg in H.
    apply createNewSession_inl in H as (fs1 & fs2 & _ & _ & -> & -> & _).
    exists (new_session env id w). simpl. by rewrite lookup_insert_eq.
Qed.

(** X12. The handler always tells the client the resolved session id. In
    a world reached by the calls of the package, the response to a POST
    request with a decodable body is a JSON payload whose id is the id of
    the request when it has one and the generated id when it has none,
    whether the session existed, was created, ran, failed or timed out.
    The one exception is a failed session creation: the payload then has
    an empty id and the fixed error text, and the cause is not passed
    on. *)
Theorem handler_returns_resolved_id (r : handler.Request) (env : handler.Env) (w : World)
    (req : models.RequestPayload) :
  world_wf w ->
  handler.Method r = "POST" ->
  handler.Body r = Some req ->
  let resp := (handler.ExecuteHandler python Quote cfg r env w).1 in
  (forall l w1,
     GetOrCreateSession (handler.create_env env) (models.ID req) w = (inl l, w1) ->
     exists p, resp = handler.JSON p /\
       models.RID p = new_id (handler.create_env env) (models.ID req) /\
       (models.ID req <> "" -> models.RID p = models.ID req) /\
       (models.ID req = "" -> models.RID p = new_uuid (handler.create_env env))) /\
  (forall e w1,
     GetOrCreateSession (handler.create_env env) (models.ID req) w = (inr e, w1) ->
     resp = handler.JSON {| models.RID := ""; models.Stdout := ""; models.Stderr := "";
                            models.Error := "Failed to initialize session" |} /\
     (handler.ExecuteHandler python Quote cfg r env w).2 = w1).
Proof.
  intros Hwf Hm Hb resp. split.
  - intros l w1 Hg.
    destruct (GetOrCreateSession_inl_ID _ _ _ _ _ Hwf Hg) as (s & Hs & Hid).
    unfold resp. rewrite (ExecuteHandler_respond python Quote cfg r env w w1 req l s Hm Hb Hg Hs).
    destruct (respond_RID (ID s)
                (ExecuteCode python Quote s
                   (WithTimeout Background (handler.ExecutionTimeout cfg) (handler.t_request env))
                   (models.Code req) (handler.exec_env env) (fs w1)).1.1
                (ctx_Err
                   (WithTimeout Background (handler.ExecutionTimeout cfg) (handler.t_request env))
                   (handler.t_checked env))) as (p & Hp & Hrid).
    exists p. split; [exact Hp |]. rewrite Hrid, Hid. split_and!; [done | |].
    + intros Hne. unfold new_id. apply String.eqb_neq in Hne. by rewrite Hne.
    + intros ->. done.
  - intros e w1 Hg. unfold resp, handler.ExecuteHandler. by rewrite Hm, Hb, Hg.
Qed.

Lemma ExecuteCode_deadline_error (s : Session) (ctx : Context) (code : string) (env : ExecEnv)
    (fs : FS) :
  (ExecuteCode python Quote s ctx code env fs).1.1.2 = Some (ErrContext DeadlineExceeded) ->
  ctx_Err ctx (t_done env) = Some DeadlineExceeded.
Proof.
  unfold ExecuteCode. destruct (isRunning s); simpl; [| discriminate].
  destruct (os.WriteFile _ _ fs) as [fs1 | c]; simpl; [| discriminate].
  destruct (run_script _ _ _ _ _ fs1) as [pr fs2].
  destruct (ctx_Err ctx (t_done env)) as [[]|]; simpl; try done.
  - destruct (p_exit pr) as [n | | msg]; simpl; [by destruct (n =? 0) | done | done].
  - destruct (p_exit pr) as [n | | msg]; simpl; [by destruct (n =? 0) | done | done].
Qed.

(** X13. Once the handler holds a session, its response is the timeout
    payload (the id of the session and the text [execution timeout], no
    output) as soon as [ExecutionTimeout] has elapsed since the context was
    made when the handler checks, whatever ExecuteCode returned, a complete
    result included. With a clock that does not go back between the check
    of ExecuteCode and the check of the handler, the deadline error of
    ExecuteCode is always reported this way, so that its own text never
    reaches the client; and when the time has not elapsed at the check of
    the handler, the response is the one built from the result of
    ExecuteCode. *)
Theorem handler_reports_timeout (r : handler.Request) (env : handler.Env) (w w1 : World)
    (req : models.RequestPayload) (l : loc) (s : Session) :
  handler.Method r = "POST" ->
  handler.Body r = Some req ->
  GetOrCreateSession (handler.create_env env) (models.ID req) w = (inl l, w1) ->
  heap w1 !! l = Some s ->
  let resp := (handler.ExecuteHandler python Quote cfg r env w).1 in
  let ctx := WithTimeout Background (handler.ExecutionTimeout cfg) (handler.t_request env) in
  let result := (ExecuteCode python Quote s ctx (models.Code req) (handler.exec_env env)
                   (fs w1)).1.1 in
  let timeout := handler.JSON {| models.RID := ID s; models.Stdout := ""; models.Stderr := "";
                                 models.Error := "execution timeout" |} in
  (handler.t_request env + handler.ExecutionTimeout cfg <= handler.t_checked env ->
   resp = timeout) /\
  (t_done (handler.exec_env env) <= handler.t_checked env ->
   result.2 = Some (ErrContext DeadlineExceeded) -> resp = timeout) /\
  (handler.t_checked env < handler.t_request env + handler.ExecutionTimeout cfg ->
   resp = handler.respond (ID s) result None).
Proof.
  intros Hm Hb Hg Hs resp ctx result timeout.
  assert (Hresp : resp = handler.respond (ID s) result (ctx_Err ctx (handler.t_checked env))).
  { unfold resp. by rewrite (ExecuteHandler_respond python Quote cfg r env w w1 req l s Hm Hb Hg Hs). }
  assert (Hlate : handler.t_request env + handler.ExecutionTimeout cfg <= handler.t_checked env ->
                  resp = timeout).
  { intros Ht. rewrite Hresp. unfold ctx, WithTimeout, ctx_Err. simpl.
    apply Z.leb_le in Ht. rewrite Ht. by destruct result as [[o x] e]. }
  split_and!; [done | |].
  - intros Hmono Hdl. apply Hlate.
    apply ExecuteCode_deadline_error in Hdl. unfold ctx, WithTimeout, ctx_Err in Hdl. simpl in Hdl.
    destruct (_ <=? t_done (handler.exec_env env)) eqn:Hle; [| discriminate].
    apply Z.leb_le in Hle. lia.
  - intros Ht. rewrite Hresp. unfold ctx, WithTimeout, ctx_Err. simpl.
    apply Z.leb_gt in Ht. by rewrite Ht.
Qed.

(** X14. The handler never unregisters and never kills: after any
    request, every id of the map is still in the map and every session
    object is still allocated with the same id and the same running flag;
    and a request that is rejected (a method other than POST, or a body
    that does not decode) leaves the world exactly as it was: it creates
    no session and no file. *)
Theorem handler_only_adds (r : handler.Request) (env : handler.Env) (w : World) :
  let w' := (handler.ExecuteHandler python Quote cfg r env w).2 in
  (forall id, is_Some (sessions (manager w) !! id) -> is_Some (sessions (manager w') !! id)) /\
  (forall l s, heap w !! l = Some s ->
     exists s', heap w' !! l = Some s' /\ ID s' = ID s /\ isRunning s' = isRunning s) /\
  (handler.Method r <> "POST" \/ handler.Body r = None -> w' = w).
Proof.
  intros w'. unfold w', handler.ExecuteHandler.
  destruct (negb (String.eqb (handler.Method r) "POST")) eqn:Hm.
  { split_and!; [done | by eauto | done]. }
  destruct (handler.Body r) as [req|] eqn:Hb.
  2:{ split_and!; [done | by eauto | done]. }
  apply negb_false_iff, String.eqb_eq in Hm.
  assert (Hget : let w1 := (GetOrCreateSession (handler.create_env env) (models.ID req) w).2 in
            (forall id, is_Some (sessions (manager w) !! id) ->
                        is_Some (sessions (manager w1) !! id)) /\
            (forall l s, heap w !! l = Some s -> heap w1 !! l = Some s)).
  { destruct (GetOrCreateSession_cases (handler.create_env env) (models.ID req) w)
      as [(l0 & s0 & _ & _ & _ & _ & ->) | ->]; [done |].
    pose proof (createNewSession_cases (handler.create_env env) (models.ID req) w) as Hc.
    destruct (os.MkdirAll _ (fs w)) as [fs1 | c]; [| by rewrite Hc].
    destruct (os.WriteFile _ state_header fs1) as [fs2 | c]; rewrite Hc; simpl; [| done].
    split.
    - intros id [l Hl].
      destruct (decide (new_id (handler.create_env env) (models.ID req) = id)) as [<- | Hne].
      + rewrite lookup_insert_eq. by eexists.
      + rewrite lookup_insert_ne by done. by eexists.
    - intros l s Hs. rewrite lookup_insert_ne; [done |]. intros <-.
      pose proof (is_fresh (dom (heap w))) as Hf. apply Hf, elem_of_dom. by eexists. }
  destruct (GetOrCreateSession (handler.create_env env) (models.ID req) w) as [[l | e] w1].
  2:{ simpl in Hget. destruct Hget as [H1 H2]. split_and!; [done | | intros [? | ?]; congruence].
      intros l s Hs. exists s. split; [by apply H2 | done]. }
  simpl in Hget. destruct Hget as [H1 H2].
  assert (Hexec : let w2 := (ExecuteCode_at python Quote l
                    (WithTimeout Background (handler.ExecutionTimeout cfg) (handler.t_request env))
                    (models.Code req) (handler.exec_env env) w1).2 in
            manager w2 = manager w1 /\
            forall l' s, heap w1 !! l' = Some s ->
              exists s', heap w2 !! l' = Some s' /\ ID s' = ID s /\ isRunning s' = isRunning s).
  { unfold ExecuteCode_at. destruct (heap w1 !! l) as [s0|] eqn:Hs0; [| by eauto].
    pose proof (ExecuteCode_keeps_fields python Quote s0
                  (WithTimeout Background (handler.ExecutionTimeout cfg) (handler.t_request env))
                  (models.Code req) (handler.exec_env env) (fs w1)) as (Hrun & Hid & _).
    destruct (ExecuteCode python Quote s0 _ _ _ (fs w1)) as [[res s'] fs']. simpl in *.
    split; [done |]. intros l' s Hs.
    destruct (decide (l = l')) as [<- | Hne].
    - assert (s0 = s) as -> by congruence. exists s'. by rewrite lookup_insert_eq.
    - exists s. by rewrite lookup_insert_ne. }
  destruct (ExecuteCode_at python Quote l _ _ _ w1) as [[res|] w2]; simpl in Hexec;
    destruct Hexec as [Hmgr Hheap].
  - assert (Hw2 : forall x, (match heap w2 !! l with
                             | Some s => (x s, w2)
                             | None => (handler.Panic, w2)
                             end).2 = w2) by (intros x; by destruct (heap w2 !! l)).
    split_and!.
    + intros id Hid. destruct (heap w2 !! l); simpl; rewrite Hmgr; by apply H1.
    + intros l' s Hs. destruct (heap w2 !! l); simpl; apply Hheap; by apply H2.
    + intros [? | ?]; congruence.
  - split_and!; simpl.
    + intros id Hid. rewrite Hmgr. by apply H1.
    + intros l' s Hs. apply Hheap. by apply H2.
    + intros [? | ?]; congruence.
Qed.

End MoreHandler.

(** ** A running session without its directory *)

Section MissingDirectory.

Variable python : string -> list (string * PyVal) -> PyResult.
Variable Quote : string -> string.

Lemma WriteFile_without_parent (d name data : string) (fs : FS) :
  slash_free name = true -> d <> "" -> d ∉ dirs fs ->
  exists c, os.WriteFile (filepath.Join d name) data fs = inr c /\
            Path c = filepath.Join d name.
Proof.
  intros Hname Hd Hdir. unfold os.WriteFile.
  destruct (os.is_dir fs (filepath.Join d name)); [by eexists |].
  unfold os.parent_exists. rewrite (Dir_Join d name Hname).
  unfold os.is_dir. apply String.eqb_neq in Hd. rewrite Hd. simpl.
  rewrite bool_decide_eq_false_2 by done. simpl. by eexists.
Qed.

(** X15. ExecuteCode does not recreate the directory of a session. On a
    running session whose directory is missing, every call returns empty
    output and the error [failed to create execution script], runs no
    interpreter, leaves the file system as it is and the session running;
    this is what happens to a running session after its directory, or a
    directory above it, has been removed with os.RemoveAll. *)
Theorem ExecuteCode_missing_directory (s : Session) (ctx : Context) (code : string)
    (env : ExecEnv) (fs : FS) :
  isRunning s = true ->
  sessionDir s <> "" ->
  (sessionDir s ∉ dirs fs ->
   exists c,
     ExecuteCode python Quote s ctx code env fs
       = (("", "", Some (ErrCreateScript c)), set_lastUsed (t_used env) s, fs) /\
     Path c = tempScriptPath s env) /\
  (forall d, filepath.under d (sessionDir s) = true ->
     exists c,
       ExecuteCode python Quote s ctx code env (os.RemoveAll d fs)
         = (("", "", Some (ErrCreateScript c)), set_lastUsed (t_used env) s, os.RemoveAll d fs)).
Proof.
  intros Hrun Hne.
  assert (H : forall fs0, sessionDir s ∉ dirs fs0 ->
            exists c,
              ExecuteCode python Quote s ctx code env fs0
                = (("", "", Some (ErrCreateScript c)), set_lastUsed (t_used env) s, fs0) /\
              Path c = tempScriptPath s env).
  { intros fs0 Hdir.
    destruct (WriteFile_without_parent (sessionDir s) ("exec_" +:+ pretty (t_name env) +:+ ".py")
                (scriptContent Quote (statePath s) code) fs0
                (script_name_slash_free _) Hne Hdir) as (c & Hw & Hp).
    exists c. split; [| done]. by apply ExecuteCode_no_script. }
  split; [apply H |].
  intros d Hd. destruct (H (os.RemoveAll d fs)) as (c & Hc & _); [| by exists c].
  by destruct (RemoveAll_gone d fs (sessionDir s) Hd).
Qed.

End MissingDirectory.

(** * Instances of the further properties *)

Lemma Cleanup_once_and_for_all_witness :
  os.gone (sessionDir Demo.sess_x) (Cleanup Demo.sess_x (fs Demo.world_x)).2.
Proof.
  destruct (Cleanup_once_and_for_all Demo.sess_x (fs Demo.world_x)) as (_ & _ & H & _).
  apply H. reflexivity.
Defined.

Lemma ExecuteCode_refreshes_lastUsed_witness :
  (ExecuteCode Demo.python Demo.Quote Demo.sess_x (Demo.ctx_at 20) Demo.sleep
     (Demo.late 20 (KilledInCode "" "")) (fs Demo.world_x)).1.2
  = set_lastUsed 20 Demo.sess_x.
Proof.
  destruct (ExecuteCode_refreshes_lastUsed Demo.python Demo.Quote Demo.sess_x (Demo.ctx_at 20)
              Demo.sleep (Demo.late 20 (KilledInCode "" "")) (fs Demo.world_x))
    as (_ & _ & _ & _ & H & _).
  apply H. reflexivity.
Defined.




Lemma run_keeps_sessions_witness :
  exists s', heap (run Demo.python Demo.Quote Demo.calls Demo.world_cleaned) !! 0%nat = Some s' /\
    ID s' = "a" /\ s' = set_isRunning false Demo.sess_a.
Proof.
  assert (H0 : heap Demo.world_cleaned !! 0%nat = Some (set_isRunning false Demo.sess_a))
    by (vm_compute; reflexivity).
  destruct (run_keeps_sessions Demo.python Demo.Quote Demo.calls Demo.world_cleaned 0%nat
              (set_isRunning false Demo.sess_a) H0) as (s' & Hs & Hid & _ & _ & Hdead).
  exists s'. split_and!; [exact Hs | exact Hid | apply Hdead; reflexivity].
Defined.

Lemma GetOrCreateSession_replaces_dead_witness :
  GetOrCreateSession (Demo.create "u2" 30) "a" Demo.world_cleaned
  = createNewSession (Demo.create "u2" 30) "a" Demo.world_cleaned.
Proof.
  assert (H1 : sessions (manager Demo.world_cleaned) !! "a" = Some 0%nat)
    by (vm_compute; reflexivity).
  assert (H2 : heap Demo.world_cleaned !! 0%nat = Some (set_isRunning false Demo.sess_a))
    by (vm_compute; reflexivity).
  destruct (GetOrCreateSession_replaces_dead (Demo.create "u2" 30) "a" Demo.world_cleaned 0%nat
              (set_isRunning false Demo.sess_a)) as [H _];
    [discriminate | exact H1 | exact H2 | reflexivity | exact H].
Defined.

Lemma CleanupSessions_shrinks_and_settles_witness :
  CleanupSessions (10 * Minute) (5 * Minute)
    (CleanupSessions (10 * Minute) (5 * Minute) Demo.world_x)
  = CleanupSessions (10 * Minute) (5 * Minute) Demo.world_x.
Proof.
  destruct (CleanupSessions_shrinks_and_settles (10 * Minute) (5 * Minute) Demo.world_x)
    as (_ & _ & _ & H).
  exact H.
Defined.

Lemma CleanupSessions_spares_the_rest_witness :
  heap (CleanupSessions 20 (5 * Minute) Demo.world_x) !! 0%nat = Some Demo.sess_x.
Proof.
  destruct (CleanupSessions_spares_the_rest 20 (5 * Minute) Demo.world_x
              (map_to_list (sessions (manager Demo.world_x)))) as (_ & _ & H).
  apply H; [vm_compute; reflexivity | discriminate].
Defined.

Lemma executing_keeps_session_alive_witness :
  sessions (manager (CleanupSessions (10 * Minute) (5 * Minute)
     (ExecuteCode_at Demo.python Demo.Quote 0%nat Background "print(x)"
        (Demo.quiet (6 * Minute)) Demo.world_x).2)) !! "a" = Some 0%nat.
Proof.
  assert (H1 : sessions (manager Demo.world_x) !! "a" = Some 0%nat) by (vm_compute; reflexivity).
  assert (H2 : heap Demo.world_x !! 0%nat = Some Demo.sess_x) by (vm_compute; reflexivity).
  destruct (executing_keeps_session_alive Demo.python Demo.Quote Demo.world_x "a" 0%nat
              Demo.sess_x Background "print(x)" (Demo.quiet (6 * Minute)) (Demo.create "u9" 0)
              (10 * Minute) (5 * Minute)) as [H _];
    [discriminate | exact H1 | exact H2 | reflexivity |].
  destruct H as [H _]; [discriminate | exact H].
Defined.

Lemma world_x_wf : world_wf Demo.world_x.
Proof.
  apply (world_wf_call Demo.python Demo.Quote
           (CallExecuteCode 0%nat Background "x = 42" (Demo.quiet 10)) Demo.world_a).
  apply (world_wf_call Demo.python Demo.Quote
           (CallGetOrCreateSession (Demo.create "u1" 0) "a") Demo.world0).
  apply world_wf_NewManager.
Defined.

Lemma handler_returns_resolved_id_witness :
  exists p,
    (handler.ExecuteHandler Demo.python Demo.Quote handler.defaults Tour.anonymous
       Demo.quiet_henv Demo.world_x).1 = handler.JSON p /\
    models.RID p = "u2".
Proof.
  destruct (handler_returns_resolved_id Demo.python Demo.Quote handler.defaults Tour.anonymous
              Demo.quiet_henv Demo.world_x {| models.ID := ""; models.Code := "x = 42" |}
              world_x_wf eq_refl eq_refl) as [H _].
  destruct (H (fresh (dom (heap Demo.world_x)))
              (GetOrCreateSession (handler.create_env Demo.quiet_henv) "" Demo.world_x).2)
    as (p & Hp & _ & _ & Hid).
  - vm_compute. reflexivity.
  - exists p. split; [exact Hp | apply Hid; reflexivity].
Defined.

Lemma handler_reports_timeout_witness :
  (handler.ExecuteHandler Demo.python Demo.Quote handler.defaults Demo.request Demo.henv
     Demo.world_a).1 = handler.JSON Demo.timeout_payload.
Proof.
  assert (Hg : GetOrCreateSession (handler.create_env Demo.henv) "a" Demo.world_a
               = (inl 0%nat, Demo.world_a)) by (vm_compute; reflexivity).
  assert (Hs : heap Demo.world_a !! 0%nat = Some Demo.sess_a) by (vm_compute; reflexivity).
  destruct (handler_reports_timeout Demo.python Demo.Quote handler.defaults Demo.request
              Demo.henv Demo.world_a Demo.world_a
              {| models.ID := "a"; models.Code := Demo.sleep |} 0%nat Demo.sess_a
              eq_refl eq_refl Hg Hs) as (H & _).
  apply H. discriminate.
Defined.

Lemma handler_only_adds_witness :
  (handler.ExecuteHandler Demo.python Demo.Quote handler.defaults Tour.get_request
     Demo.quiet_henv Demo.world_x).2 = Demo.world_x.
Proof.
  destruct (handler_only_adds Demo.python Demo.Quote handler.defaults Tour.get_request
              Demo.quiet_henv Demo.world_x) as (_ & _ & H).
  apply H. left. discriminate.
Defined.

Lemma ExecuteCode_missing_directory_witness :
  exists c,
    ExecuteCode Demo.python Demo.Quote Demo.sess_x Background "print(x)" (Demo.quiet 20)
      (os.RemoveAll Demo.base (fs Demo.world_x))
    = (("", "", Some (ErrCreateScript c)), set_lastUsed 20 Demo.sess_x,
       os.RemoveAll Demo.base (fs Demo.world_x)).
Proof.
  destruct (ExecuteCode_missing_directory Demo.python Demo.Quote Demo.sess_x Background "print(x)"
              (Demo.quiet 20) (fs Demo.world_x)) as [_ H]; [reflexivity | discriminate |].
  apply H. vm_compute. reflexivity.
Defined.
